(** * Datastore size reconciliation and read/delete error handling

    A shallow embedding of [fwprovider/nodes/storage_helpers.go]:
    [applySizeRequiresReplace], [handleReadResult] and
    [handleDatastoreDeleteError], together with the parts of the Go
    standard library ([strconv], [strings], [errors], [fmt]) and of the
    plugin framework ([diag], [types], the response structs) they use.

    Go strings are byte sequences; they are modelled as [string] (a list of
    8-bit [ascii]).  Go's [int64] and [uint64] are modelled as [Z] with the
    wrap-around written out where the code relies on it.  The response
    structs passed by pointer are threaded explicitly: each function takes
    the response and returns the updated one. *)

From Stdlib Require Import ZArith List Bool Lia.
From Stdlib Require Import Strings.String Strings.Ascii Strings.Byte.
From Stdlib Require Import Numbers.DecimalString Numbers.DecimalPos.
Import ListNotations.

Local Open Scope string_scope.
Local Open Scope Z_scope.

(* ================================================================== *)
(** ** Package [strings] *)

Module strings.

(** [strings.HasPrefix(s, prefix)]. *)
Fixpoint HasPrefix (s prefix : string) {struct prefix} : bool :=
  match prefix with
  | EmptyString => true
  | String p prefix' =>
      match s with
      | EmptyString => false
      | String c s' => Ascii.eqb c p && HasPrefix s' prefix'
      end
  end.

(** [strings.Contains(s, substr)]: [substr] occurs at some offset of [s]. *)
Fixpoint Contains (s substr : string) : bool :=
  HasPrefix s substr ||
  match s with
  | EmptyString => false
  | String _ s' => Contains s' substr
  end.

End strings.

(* ================================================================== *)
(** ** Package [strconv] *)

Module strconv.

(** The two sentinel errors a [NumError] can carry from [ParseInt] with a
    valid base and bit size. *)
Inductive numErr : Type :=
| ErrSyntax
| ErrRange.

Definition numErr_Error (e : numErr) : string :=
  match e with
  | ErrSyntax => "invalid syntax"
  | ErrRange => "value out of range"
  end.

(** [*strconv.NumError]. *)
Record NumError : Type := mkNumError
  { Func : string;
    Num : string;
    Err : numErr }.

Definition syntaxError (fn str : string) : NumError := mkNumError fn str ErrSyntax.
Definition rangeError (fn str : string) : NumError := mkNumError fn str ErrRange.

(** The [Error] method of [NumError].  [strconv.Quote] escapes by Unicode tables and
    is taken as a parameter. *)
Definition NumError_Error (Quote : string -> string) (e : NumError) : string :=
  "strconv." ++ Func e ++ ": parsing " ++ Quote (Num e) ++ ": " ++ numErr_Error (Err e).

Definition maxUint64 : Z := 2 ^ 64 - 1.

(** Conversions to [uint64] and [int64] (two's complement wrap-around). *)
Definition toUint64 (z : Z) : Z := z mod 2 ^ 64.
Definition toInt64 (z : Z) : Z := (z + 2 ^ 63) mod 2 ^ 64 - 2 ^ 63.

(** The call in the source fixes base 10 and bit size 64. *)
Definition base : Z := 10.
Definition bitSize : Z := 64.

Definition byteval (c : ascii) : Z := Z.of_N (N_of_ascii c).

(** [lower(c)] is [c | ('x' - 'X')]. *)
Definition lower (c : Z) : Z := Z.lor c 32.

(** The digit value of one byte, [None] where the loop of [ParseUint]
    reports a syntax error ([default] case, or digit not below the base). *)
Definition digit (c : ascii) : option Z :=
  let b := byteval c in
  let d :=
    if (48 <=? b) && (b <=? 57) then Some (b - 48)
    else if (97 <=? lower b) && (lower b <=? 122) then Some (lower b - 97 + 10)
    else None in
  match d with
  | Some d => if d >=? base then None else Some d
  | None => None
  end.

(** The digit loop of [ParseUint]: [n] is the accumulator, [s0] the whole
    input (for the error value), [s] the bytes still to read. *)
Fixpoint parseLoop (s0 : string) (cutoff maxVal : Z) (s : string) (n : Z)
  : Z * option NumError :=
  match s with
  | EmptyString => (n, None)
  | String c s' =>
      match digit c with
      | None => (0, Some (syntaxError "ParseUint" s0))
      | Some d =>
          if n >=? cutoff then (maxVal, Some (rangeError "ParseUint" s0))
          else
            let n := toUint64 (n * base) in
            let n1 := toUint64 (n + d) in
            if (n1 <? n) || (n1 >? maxVal)
            then (maxVal, Some (rangeError "ParseUint" s0))
            else parseLoop s0 cutoff maxVal s' n1
      end
  end.

(** [strconv.ParseUint(s, 10, 64)]. *)
Definition ParseUint (s : string) : Z * option NumError :=
  match s with
  | EmptyString => (0, Some (syntaxError "ParseUint" s))
  | _ =>
      let cutoff := maxUint64 / base + 1 in
      let maxVal := toUint64 (Z.shiftl 1 bitSize - 1) in
      parseLoop s cutoff maxVal s 0
  end.

(** [strconv.ParseInt(s, 10, 64)]. *)
Definition ParseInt (s : string) : Z * option NumError :=
  match s with
  | EmptyString => (0, Some (syntaxError "ParseInt" s))
  | String c rest =>
      let s0 := s in
      let '(neg, s) :=
        if Ascii.eqb c "+" then (false, rest)
        else if Ascii.eqb c "-" then (true, rest)
        else (false, s) in
      let '(un, err) := ParseUint s in
      match err with
      | Some (mkNumError _ _ ErrSyntax) => (0, Some (mkNumError "ParseInt" s0 ErrSyntax))
      | _ =>
          let cutoff := toUint64 (Z.shiftl 1 (bitSize - 1)) in
          if negb neg && (un >=? cutoff)
          then (toInt64 (cutoff - 1), Some (rangeError "ParseInt" s0))
          else if neg && (un >? cutoff)
          then (toInt64 (- toInt64 cutoff), Some (rangeError "ParseInt" s0))
          else
            let n := toInt64 un in
            let n := if neg then toInt64 (- n) else n in
            (n, None)
      end
  end.

(** [%d] of an [int64] (also [strconv.FormatInt(v, 10)]). *)
Definition FormatInt (v : Z) : string := NilZero.string_of_int (Z.to_int v).

End strconv.

(* ================================================================== *)
(** ** Package [errors] and the [error] interface *)

Module errors.

(** Values of the interface type [error], by what the code can observe of
    them: the text of [Error()], the chain of [Unwrap()], and [==].
    - [errorValue ident msg] is a comparable value without [Unwrap]
      (a value of a string type such as [api.Error], or the pointer made
      by [errors.New]); [ident] stands for its dynamic type and identity.
    - [wrapError msg err] is [*fmt.wrapError], made by [fmt.Errorf] with
      one [%w]: its text is [msg], it unwraps to [err].
    - [wrapErrors msg errs] has [Unwrap() []error] ([fmt.Errorf] with
      several [%w], [errors.Join]). *)
#[warnings="-register-all"]
Inductive error : Type :=
| errorValue (ident : nat) (msg : string)
| wrapError (msg : string) (err : error)
| wrapErrors (msg : string) (errs : list error).

(** [err.Error()]. *)
Definition Error (err : error) : string :=
  match err with
  | errorValue _ msg => msg
  | wrapError msg _ => msg
  | wrapErrors msg _ => msg
  end.

(** [err == target] on interface values.  The wrappers are pointers, and
    [errors.Is] is only asked for a target that is a plain value. *)
Definition equal (err target : error) : bool :=
  match err, target with
  | errorValue i m, errorValue j n => Nat.eqb i j && String.eqb m n
  | _, _ => false
  end.

(** [errors.Is(err, target)]: [err] or an error of its tree equals
    [target]. *)
Fixpoint Is (err target : error) : bool :=
  equal err target ||
  match err with
  | errorValue _ _ => false
  | wrapError _ inner => Is inner target
  | wrapErrors _ errs => existsb (fun e => Is e target) errs
  end.

End errors.

(* ================================================================== *)
(** ** Package [diag] of the plugin framework *)

Module diag.

Inductive Severity : Type :=
| SeverityInvalid
| SeverityError
| SeverityWarning.

(** A diagnostic without attribute path. *)
Record Diagnostic : Type := mkDiagnostic
  { severity : Severity;
    Summary : string;
    Detail : string }.

Definition Diagnostics : Type := list Diagnostic.

Definition NewErrorDiagnostic (summary detail : string) : Diagnostic :=
  mkDiagnostic SeverityError summary detail.

Definition NewWarningDiagnostic (summary detail : string) : Diagnostic :=
  mkDiagnostic SeverityWarning summary detail.

Definition Severity_eqb (a b : Severity) : bool :=
  match a, b with
  | SeverityInvalid, SeverityInvalid => true
  | SeverityError, SeverityError => true
  | SeverityWarning, SeverityWarning => true
  | _, _ => false
  end.

(** [d.Equal(other)]: same kind, summary and detail. *)
Definition Equal (d other : Diagnostic) : bool :=
  Severity_eqb (severity d) (severity other)
  && String.eqb (Summary d) (Summary other)
  && String.eqb (Detail d) (Detail other).

(** [diags.Contains(in)]. *)
Definition Contains (diags : Diagnostics) (d : Diagnostic) : bool :=
  existsb (fun x => Equal x d) diags.

(** [diags.Append(in)] for one diagnostic.  The framework documents it as
    adding "non-empty and non-duplicate diagnostics to the collection": a
    diagnostic that [Contains] finds is skipped. *)
Definition Append (diags : Diagnostics) (d : Diagnostic) : Diagnostics :=
  if Contains diags d then diags else (diags ++ [d])%list.

Definition AddError (diags : Diagnostics) (summary detail : string) : Diagnostics :=
  Append diags (NewErrorDiagnostic summary detail).

Definition AddWarning (diags : Diagnostics) (summary detail : string) : Diagnostics :=
  Append diags (NewWarningDiagnostic summary detail).

End diag.

(* ================================================================== *)
(** ** Values and response structs of the plugin framework *)

(** [types.Int64]: null, unknown, or a known [int64]. *)
Inductive Int64 : Type :=
| Int64Null
| Int64Unknown
| Int64Value (v : Z).

(** [planmodifier.Int64Response]. *)
Record Int64Response : Type := mkInt64Response
  { PlanValue : Int64;
    RequiresReplace : bool;
    PlanDiagnostics : diag.Diagnostics }.

Definition setRequiresReplace (resp : Int64Response) (b : bool) : Int64Response :=
  mkInt64Response (PlanValue resp) b (PlanDiagnostics resp).

Definition setPlanValue (resp : Int64Response) (v : Int64) : Int64Response :=
  mkInt64Response v (RequiresReplace resp) (PlanDiagnostics resp).

Definition setPlanDiagnostics (resp : Int64Response) (d : diag.Diagnostics) : Int64Response :=
  mkInt64Response (PlanValue resp) (RequiresReplace resp) d.

(** The line feed of the Go literal [\n]. *)
Definition LF : string := String (ascii_of_nat 10) EmptyString.

(** The double quote, and [strconv.Quote] as it acts on printable ASCII
    text without quote or backslash. *)
Definition dquote : string := String (ascii_of_nat 34) EmptyString.
Definition quotePlain (s : string) : string := dquote ++ s ++ dquote.

Section StorageHelpers.

(** [strconv.Quote]. *)
Variable Quote : string -> string.

(** [context.Context], only handed on to the framework. *)
Variable Context : Type.

(** The content of a [tfsdk.State] that holds a resource. *)
Variable RawValue : Type.

(** [api.ErrResourceDoesNotExist], the sentinel of package [proxmox/api]. *)
Variable ErrResourceDoesNotExist : errors.error.

(** [tfsdk.State]: [Raw] is [None] for the null value. *)
Record State : Type := mkState
  { Raw : option RawValue }.

(** [State.RemoveResource(ctx)] makes the state the null value. *)
Definition RemoveResource (ctx : Context) (s : State) : State :=
  mkState None.

(** [resource.ReadResponse]. *)
Record ReadResponse : Type := mkReadResponse
  { ReadState : State;
    ReadDiagnostics : diag.Diagnostics }.

(** [resource.DeleteResponse]. *)
Record DeleteResponse : Type := mkDeleteResponse
  { DeleteState : State;
    DeleteDiagnostics : diag.Diagnostics }.

(** *** [applySizeRequiresReplace] *)

(** The texts of its two diagnostics. *)
Definition parseErrorSummary (resourceKind : string) : string :=
  "Unable to convert original state " ++ resourceKind ++ " size to int64".

Definition parseErrorDetail (err : strconv.NumError) : string :=
  "Unexpected error in parsing string to int64, key original_state_size. "
  ++ "Please retry the operation or report this issue to the provider developers."
  ++ LF ++ LF
  ++ "Error: " ++ strconv.NumError_Error Quote err.

Definition sizeChangedSummary (resourceKind : string) : string :=
  "The " ++ resourceKind ++ " size in datastore has changed outside of terraform.".

Definition sizeChangedDetail (originalStateSize stateSize : Z) : string :=
  "Previous size: " ++ strconv.FormatInt originalStateSize
  ++ " saved in state does not match current size from datastore: "
  ++ strconv.FormatInt stateSize
  ++ ". " ++ "You can disable this behaviour by using overwrite=false".

Definition applySizeRequiresReplace
  (resp : Int64Response)
  (originalStateSizeBytes : option (list byte))
  (stateSize : Z)
  (planOverwrite : bool)
  (resourceKind : string) : Int64Response :=
  match originalStateSizeBytes with
  | None => resp
  | Some bytes =>
      let '(originalStateSize, err) := strconv.ParseInt (string_of_list_byte bytes) in
      match err with
      | Some err =>
          setPlanDiagnostics resp
            (diag.AddError (PlanDiagnostics resp)
               (parseErrorSummary resourceKind) (parseErrorDetail err))
      | None =>
          if negb (stateSize =? originalStateSize) && planOverwrite then
            let resp := setRequiresReplace resp true in
            let resp := setPlanValue resp (Int64Value originalStateSize) in
            setPlanDiagnostics resp
              (diag.AddWarning (PlanDiagnostics resp)
                 (sizeChangedSummary resourceKind)
                 (sizeChangedDetail originalStateSize stateSize))
          else resp
      end
  end.

(** *** [handleReadResult] *)

Definition handleReadResult
  (ctx : Context) (resp : ReadResponse) (err : option errors.error)
  (notExistMessage : string) : ReadResponse * bool :=
  match err with
  | Some err =>
      if strings.Contains (errors.Error err) "failed to authenticate" then
        (mkReadResponse (ReadState resp)
           (diag.AddError (ReadDiagnostics resp) "Failed to authenticate" (errors.Error err)),
         true)
      else
        let resp :=
          mkReadResponse (ReadState resp)
            (diag.AddWarning (ReadDiagnostics resp) notExistMessage (errors.Error err)) in
        let resp := mkReadResponse (RemoveResource ctx (ReadState resp)) (ReadDiagnostics resp) in
        (resp, true)
  | None => (resp, false)
  end.

(** *** [handleDatastoreDeleteError] *)

Definition deleteMissingSummary (itemKind : string) : string :=
  "Datastore " ++ itemKind ++ " does not exist".

Definition deleteMissingDetail (itemKind id : string) : string :=
  "Could not delete datastore " ++ itemKind ++ " '" ++ id
  ++ "', it does not exist or has been deleted outside of Terraform.".

Definition deleteErrorSummary (itemKind : string) : string :=
  "Error deleting datastore " ++ itemKind.

Definition deleteErrorDetail (itemKind id errText : string) : string :=
  "Could not delete datastore " ++ itemKind ++ " '" ++ id
  ++ "', unexpected error: " ++ errText.

Definition handleDatastoreDeleteError
  (resp : DeleteResponse) (err : option errors.error)
  (id : string) (itemKind : string) : DeleteResponse :=
  match err with
  | None => resp
  | Some e =>
      if errors.Is e ErrResourceDoesNotExist then resp
      else if strings.Contains (errors.Error e) "unable to parse" then
        mkDeleteResponse (DeleteState resp)
          (diag.AddWarning (DeleteDiagnostics resp)
             (deleteMissingSummary itemKind) (deleteMissingDetail itemKind id))
      else
        mkDeleteResponse (DeleteState resp)
          (diag.AddError (DeleteDiagnostics resp)
             (deleteErrorSummary itemKind)
             (deleteErrorDetail itemKind id (errors.Error e)))
  end.

End StorageHelpers.

Arguments RemoveResource {Context RawValue} ctx s.
Arguments handleReadResult {Context RawValue} ctx resp err notExistMessage.
Arguments handleDatastoreDeleteError {RawValue} ErrResourceDoesNotExist resp err id itemKind.
Arguments ReadState {RawValue} r.
Arguments ReadDiagnostics {RawValue} r.
Arguments DeleteState {RawValue} d.
Arguments DeleteDiagnostics {RawValue} d.
Arguments mkReadResponse {RawValue} ReadState ReadDiagnostics.
Arguments mkDeleteResponse {RawValue} DeleteState DeleteDiagnostics.
Arguments mkState {RawValue} Raw.
Arguments Raw {RawValue} s.

(* ================================================================== *)
(** ** Sample inputs *)

(** A plan response as the framework hands it to a modifier: the planned
    value, no replacement asked for, no diagnostics. *)
Definition freshPlan (planned : Z) : Int64Response :=
  mkInt64Response (Int64Value planned) false [].

(** A read or delete response over a state that holds a resource. *)
Definition freshRead : ReadResponse nat := mkReadResponse (mkState (Some 7%nat)) [].
Definition freshDelete : DeleteResponse nat := mkDeleteResponse (mkState (Some 7%nat)) [].

(** A sentinel as [api.ErrResourceDoesNotExist] is, and errors the remote
    client can return. *)
Definition sampleSentinel : errors.error :=
  errors.errorValue 1 "the requested resource does not exist".
Definition authFailure : errors.error :=
  errors.errorValue 2 "failed to authenticate user root@pam: 401 Unauthorized".
Definition objectNotFound : errors.error :=
  errors.errorValue 3 "object xyz not found".
Definition badVolumeID : errors.error :=
  errors.errorValue 4 "unable to parse volume id local:iso/x.iso".
Definition serverError : errors.error :=
  errors.errorValue 5 "received an HTTP 500 response".
Definition wrappedSentinel : errors.error :=
  errors.wrapError "unable to parse volume: the requested resource does not exist"
    sampleSentinel.

(* ================================================================== *)
(** ** Decimal digit sequences *)

(** The number a sequence of decimal digits denotes when read from the
    left with accumulator [acc], as the loop of [ParseUint] reads it. *)
Fixpoint digitsValue (d : Decimal.uint) (acc : Z) : Z :=
  match d with
  | Decimal.Nil => acc
  | Decimal.D0 l => digitsValue l (10 * acc)
  | Decimal.D1 l => digitsValue l (10 * acc + 1)
  | Decimal.D2 l => digitsValue l (10 * acc + 2)
  | Decimal.D3 l => digitsValue l (10 * acc + 3)
  | Decimal.D4 l => digitsValue l (10 * acc + 4)
  | Decimal.D5 l => digitsValue l (10 * acc + 5)
  | Decimal.D6 l => digitsValue l (10 * acc + 6)
  | Decimal.D7 l => digitsValue l (10 * acc + 7)
  | Decimal.D8 l => digitsValue l (10 * acc + 8)
  | Decimal.D9 l => digitsValue l (10 * acc + 9)
  end.

(* ================================================================== *)
(** ** More of the libraries, for the properties below *)

(** [diags.HasError()]: some diagnostic of the collection has severity
    Error.  The framework stops an operation whose response has one. *)
Definition HasError (diags : diag.Diagnostics) : bool :=
  existsb (fun d => diag.Severity_eqb (diag.severity d) diag.SeverityError) diags.

(** The bytes ['0'] to ['9']. *)
Definition isDecimalDigit (c : ascii) : bool :=
  (48 <=? strconv.byteval c) && (strconv.byteval c <=? 57).

(** The text [ParseInt] hands to [ParseUint]: the input without one
    leading sign. *)
Definition unsignedPart (s : string) : string :=
  match s with
  | EmptyString => EmptyString
  | String c rest =>
      if Ascii.eqb c "+" then rest
      else if Ascii.eqb c "-" then rest
      else s
  end.

(** All bytes of a string are decimal digits. *)
Fixpoint allDigits (s : string) : bool :=
  match s with
  | EmptyString => true
  | String c s' => isDecimalDigit c && allDigits s'
  end.

(** [inChain target err]: [target] is [err] itself or is reached from it
    by unwrapping, through [Unwrap() error] or through one of the errors
    of an [Unwrap() []error]. *)
Inductive inChain (target : errors.error) : errors.error -> Prop :=
| chain_here : inChain target target
| chain_wrap (msg : string) (inner : errors.error) :
    inChain target inner -> inChain target (errors.wrapError msg inner)
| chain_wraps (msg : string) (errs : list errors.error) (e : errors.error) :
    In e errs -> inChain target e -> inChain target (errors.wrapErrors msg errs).

(** More sample inputs: a plan response for which an earlier modifier
    asked for replacement, an authentication failure inside a not-found
    message, and the sentinel two wrappers deep. *)
Definition replacedPlan : Int64Response :=
  mkInt64Response (Int64Value 150) true [].
Definition wrappedAuthFailure : errors.error :=
  errors.wrapError "volume not found: failed to authenticate: ticket expired"
    (errors.errorValue 6 "failed to authenticate: ticket expired").
Definition nestedSentinel : errors.error :=
  errors.wrapError "delete failed"
    (errors.wrapErrors "several errors"
       [serverError; errors.wrapError "lookup" sampleSentinel]).

(* ================================================================== *)
(** ** Facts about the library models *)

Lemma HasPrefix_app (p s : string) : strings.HasPrefix (p ++ s) p = true.
Proof.
  induction p as [|c p IH]; simpl; [reflexivity|].
  now rewrite Ascii.eqb_refl.
Qed.

Lemma HasPrefix_inv (s p : string) :
  strings.HasPrefix s p = true -> exists post, s = p ++ post.
Proof.
  revert s; induction p as [|c p IH]; intros s H; simpl in *.
  - now exists s.
  - destruct s as [|d s]; [discriminate|].
    apply andb_true_iff in H as [Hc Hp].
    apply Ascii.eqb_eq in Hc; subst d.
    destruct (IH _ Hp) as [post ->]. now exists post.
Qed.

Lemma Contains_HasPrefix (s sub : string) :
  strings.HasPrefix s sub = true -> strings.Contains s sub = true.
Proof.
  intros H; destruct s; simpl in *; rewrite H; reflexivity.
Qed.

Lemma Contains_app_r (a b sub : string) :
  strings.Contains b sub = true -> strings.Contains (a ++ b) sub = true.
Proof.
  intros H; induction a as [|c a IH]; simpl; [exact H|].
  rewrite IH. apply orb_true_r.
Qed.

Lemma HasPrefix_app_l (a b sub : string) :
  strings.HasPrefix a sub = true -> strings.HasPrefix (a ++ b) sub = true.
Proof.
  revert a; induction sub as [|c sub IH]; intros a H; simpl in *; [reflexivity|].
  destruct a as [|d a]; [discriminate|]; simpl.
  apply andb_true_iff in H as [Hc Hp].
  rewrite Hc, (IH _ Hp). reflexivity.
Qed.

Lemma Contains_app_l (a b sub : string) :
  strings.Contains a sub = true -> strings.Contains (a ++ b) sub = true.
Proof.
  induction a as [|c a IH]; intros H.
  - destruct sub; [|discriminate H].
    destruct b; reflexivity.
  - change (strings.HasPrefix (String c a) sub || strings.Contains a sub = true) in H.
    change (strings.HasPrefix (String c a ++ b) sub
            || strings.Contains (a ++ b) sub = true).
    apply orb_true_iff in H as [H|H].
    + rewrite (HasPrefix_app_l (String c a) b sub H). reflexivity.
    + rewrite (IH H). apply orb_true_r.
Qed.

Lemma Contains_self (s : string) : strings.Contains s s = true.
Proof.
  apply Contains_HasPrefix.
  induction s as [|c s IH]; simpl; [reflexivity|].
  now rewrite Ascii.eqb_refl.
Qed.

(** [strings.Contains] is substring occurrence. *)
Lemma Contains_spec (s sub : string) :
  strings.Contains s sub = true <-> exists pre post, s = pre ++ sub ++ post.
Proof.
  split.
  - induction s as [|c s IH]; simpl; intros H.
    + rewrite orb_false_r in H. destruct sub; [|discriminate].
      now exists "", "".
    + apply orb_true_iff in H as [H|H].
      * destruct (HasPrefix_inv _ _ H) as [post E].
        exists "", post. exact E.
      * destruct (IH H) as (pre & post & ->).
        now exists (String c pre), post.
  - intros (pre & post & ->).
    apply Contains_app_r, Contains_HasPrefix, HasPrefix_app.
Qed.

Lemma diag_Append_fresh (ds : diag.Diagnostics) (d : diag.Diagnostic) :
  diag.Contains ds d = false -> diag.Append ds d = (ds ++ [d])%list.
Proof.
  unfold diag.Append; intros ->; reflexivity.
Qed.

Lemma diag_Append_present (ds : diag.Diagnostics) (d : diag.Diagnostic) :
  diag.Contains ds d = true -> diag.Append ds d = ds.
Proof.
  unfold diag.Append; intros ->; reflexivity.
Qed.

(** The collection only grows, by at most the diagnostic handed in. *)
Lemma diag_Append_extends (ds : diag.Diagnostics) (d : diag.Diagnostic) :
  exists tail, diag.Append ds d = (ds ++ tail)%list /\ (tail = [] \/ tail = [d]).
Proof.
  unfold diag.Append. destruct (diag.Contains ds d).
  - exists []. rewrite List.app_nil_r. auto.
  - exists [d]. auto.
Qed.

Lemma diag_Append_grows (ds : diag.Diagnostics) (d : diag.Diagnostic) :
  exists tail, diag.Append ds d = (ds ++ tail)%list /\ (List.length tail <= 1)%nat.
Proof.
  destruct (diag_Append_extends ds d) as (tail & E & [-> | ->]);
    eexists; (split; [exact E | cbn; lia]).
Qed.

Lemma diag_Contains_Append (ds : diag.Diagnostics) (d : diag.Diagnostic) :
  diag.Contains (diag.Append ds d) d = true.
Proof.
  unfold diag.Append. destruct (diag.Contains ds d) eqn:H; [exact H|].
  unfold diag.Contains. rewrite List.existsb_app. cbn [existsb].
  assert (Hrefl : diag.Equal d d = true).
  { unfold diag.Equal. rewrite !String.eqb_refl.
    destruct (diag.severity d); reflexivity. }
  rewrite Hrefl. cbn. apply orb_true_r.
Qed.

Lemma errors_Is_wrapError (msg : string) (inner target : errors.error) :
  errors.Is inner target = true ->
  errors.Is (errors.wrapError msg inner) target = true.
Proof.
  intros H.
  change (errors.equal (errors.wrapError msg inner) target
          || errors.Is inner target = true).
  rewrite H. apply orb_true_r.
Qed.

(** A parse that reports no error returns an [int64]. *)
Lemma toInt64_range (z : Z) : - 2 ^ 63 <= strconv.toInt64 z < 2 ^ 63.
Proof.
  unfold strconv.toInt64.
  pose proof (Z.mod_pos_bound (z + 2 ^ 63) (2 ^ 64) ltac:(lia)). lia.
Qed.

Lemma ParseInt_range (s : string) (v : Z) :
  strconv.ParseInt s = (v, None) -> - 2 ^ 63 <= v < 2 ^ 63.
Proof.
  unfold strconv.ParseInt. destruct s as [|c rest]; [discriminate|].
  destruct (if Ascii.eqb c "+" then _ else _) as [neg s].
  destruct (strconv.ParseUint s) as [un [[f n [|]]|]];
    try discriminate;
    repeat match goal with
      | |- context [if ?b then _ else _] => destruct b
      end;
    intros H; inversion H; subst; try apply toInt64_range.
Qed.

(** An error of [ParseInt] names [ParseInt] and cites the whole input. *)
Lemma ParseInt_error_cites_input (s : string) (v : Z) (e : strconv.NumError) :
  strconv.ParseInt s = (v, Some e) ->
  strconv.Func e = "ParseInt" /\ strconv.Num e = s.
Proof.
  unfold strconv.ParseInt. destruct s as [|c rest].
  - intros H; inversion H; subst; split; reflexivity.
  - destruct (if Ascii.eqb c "+" then _ else _) as [neg s].
    destruct (strconv.ParseUint s) as [un [[f n [|]]|]];
      repeat match goal with
        | |- context [if ?b then _ else _] => destruct b
        end;
      intros H; inversion H; subst; split; reflexivity.
Qed.

(** *** [ParseInt] reads back what [FormatInt] writes *)

Lemma digitsValue_mono d acc : 0 <= acc -> acc <= digitsValue d acc.
Proof.
  revert acc; induction d; intros acc H; cbn [digitsValue]; try lia;
    match goal with |- _ <= digitsValue _ ?a => specialize (IHd a ltac:(lia)); lia end.
Qed.

Lemma digitsValue_of_uint_acc d acc :
  digitsValue d (Zpos acc) = Zpos (Pos.of_uint_acc d acc).
Proof.
  revert acc; induction d; intros acc; cbn [digitsValue Pos.of_uint_acc]; try reflexivity;
    rewrite <- IHd; f_equal; lia.
Qed.

Lemma digitsValue_of_uint d : digitsValue d 0 = Z.of_N (Pos.of_uint d).
Proof.
  induction d; cbn [digitsValue Pos.of_uint]; try reflexivity; try exact IHd;
    match goal with |- digitsValue _ ?a = _ =>
      change a with (Zpos (Z.to_pos a)) end; apply digitsValue_of_uint_acc.
Qed.

Ltac eval_digit :=
  match goal with
  | |- context [strconv.digit ?c] =>
      let v := eval vm_compute in (strconv.digit c) in
      change (strconv.digit c) with v
  end.

Ltac decide_test :=
  match goal with
  | |- context [if ?b then _ else _] =>
      let H := fresh "Htest" in
      destruct b eqn:H; [exfalso; lia|]
  end.

Lemma parseLoop_digits s0 d acc :
  0 <= acc -> digitsValue d acc <= strconv.maxUint64 ->
  strconv.parseLoop s0 (strconv.maxUint64 / strconv.base + 1) strconv.maxUint64
    (NilEmpty.string_of_uint d) acc = (digitsValue d acc, None).
Proof.
  change (strconv.maxUint64 / strconv.base + 1) with 1844674407370955162.
  change strconv.maxUint64 with 18446744073709551615.
  revert acc; induction d as [|d IHd|d IHd|d IHd|d IHd|d IHd|d IHd|d IHd|d IHd|d IHd|d IHd];
    intros acc H0 Hmax; [reflexivity|..].
  all: cbn [digitsValue] in *.
  all: match type of Hmax with digitsValue _ ?a <= _ =>
         pose proof (digitsValue_mono d a ltac:(lia)) as Hm;
         specialize (IHd a ltac:(lia) Hmax)
       end.
  all: cbn [NilEmpty.string_of_uint strconv.parseLoop]; eval_digit; cbv iota beta.
  all: decide_test.
  all: unfold strconv.toUint64, strconv.base.
  all: rewrite (Z.mod_small (acc * 10)) by lia.
  all: match goal with |- context [(?x mod 2 ^ 64)] =>
         rewrite (Z.mod_small x) by lia end.
  all: match goal with |- context [(?x <? ?y) || (?z >? ?w)] =>
         destruct (x <? y) eqn:H1; [exfalso; lia|];
         destruct (z >? w) eqn:H2; [exfalso; lia|] end.
  all: cbn [orb].
  all: match goal with |- strconv.parseLoop _ _ _ _ ?a = _ =>
         match type of IHd with strconv.parseLoop _ _ _ _ ?b = _ =>
           replace a with b by lia end end.
  all: exact IHd.
Qed.

Lemma ParseUint_digits d :
  d <> Decimal.Nil -> digitsValue d 0 <= strconv.maxUint64 ->
  strconv.ParseUint (NilEmpty.string_of_uint d) = (digitsValue d 0, None).
Proof.
  intros Hnil Hmax.
  pose proof (parseLoop_digits (NilEmpty.string_of_uint d) d 0 ltac:(lia) Hmax) as H.
  destruct d; [contradiction|..]; exact H.
Qed.

Lemma ParseInt_unsigned c rest un :
  Ascii.eqb c "+" = false -> Ascii.eqb c "-" = false ->
  strconv.ParseUint (String c rest) = (un, None) ->
  0 <= un < 2 ^ 63 ->
  strconv.ParseInt (String c rest) = (un, None).
Proof.
  intros Hplus Hminus Hu Hr.
  unfold strconv.ParseInt. rewrite Hplus, Hminus, Hu.
  change (strconv.toUint64 (Z.shiftl 1 (strconv.bitSize - 1))) with (2 ^ 63).
  cbn [negb andb].
  destruct (un >=? 2 ^ 63) eqn:Hc; [exfalso; lia|].
  unfold strconv.toInt64. rewrite Z.mod_small by lia. f_equal. lia.
Qed.

Lemma ParseInt_negative s un :
  strconv.ParseUint s = (un, None) ->
  0 <= un <= 2 ^ 63 ->
  strconv.ParseInt (String "-" s) = (- un, None).
Proof.
  intros Hu Hr.
  unfold strconv.ParseInt.
  change (Ascii.eqb "-" "+") with false. change (Ascii.eqb "-" "-") with true.
  cbv iota. rewrite Hu.
  change (strconv.toUint64 (Z.shiftl 1 (strconv.bitSize - 1))) with (2 ^ 63).
  cbn [negb andb].
  destruct (un >? 2 ^ 63) eqn:Hc; [exfalso; lia|].
  f_equal. unfold strconv.toInt64.
  destruct (Z.eq_dec un (2 ^ 63)) as [->|Hne]; [reflexivity|].
  rewrite (Z.mod_small (un + 2 ^ 63)) by lia.
  replace (- (un + 2 ^ 63 - 2 ^ 63) + 2 ^ 63) with (2 ^ 63 - un) by lia.
  rewrite Z.mod_small by lia. lia.
Qed.

Lemma string_of_uint_head d :
  d <> Decimal.Nil ->
  exists c rest,
    NilEmpty.string_of_uint d = String c rest
    /\ Ascii.eqb c "+" = false /\ Ascii.eqb c "-" = false.
Proof.
  destruct d; [contradiction|..]; intros _;
    cbn [NilEmpty.string_of_uint]; eexists _, _; repeat split.
Qed.

Lemma ParseUint_to_uint p :
  Zpos p <= strconv.maxUint64 ->
  strconv.ParseUint (NilEmpty.string_of_uint (Pos.to_uint p)) = (Zpos p, None).
Proof.
  intros Hmax.
  assert (Hv : digitsValue (Pos.to_uint p) 0 = Zpos p).
  { rewrite digitsValue_of_uint, DecimalPos.Unsigned.of_to. reflexivity. }
  rewrite <- Hv. apply ParseUint_digits.
  - apply DecimalPos.Unsigned.to_uint_nonnil.
  - now rewrite Hv.
Qed.

Theorem ParseInt_FormatInt v :
  - 2 ^ 63 <= v < 2 ^ 63 ->
  strconv.ParseInt (strconv.FormatInt v) = (v, None).
Proof.
  intros Hr. unfold strconv.FormatInt.
  destruct v as [|p|p]; [reflexivity| |].
  - cbn [Z.to_int NilZero.string_of_int].
    pose proof (DecimalPos.Unsigned.to_uint_nonnil p) as Hnil.
    assert (Hs : NilZero.string_of_uint (Pos.to_uint p)
                 = NilEmpty.string_of_uint (Pos.to_uint p))
      by (destruct (Pos.to_uint p); [contradiction|reflexivity..]).
    rewrite Hs.
    pose proof (ParseUint_to_uint p ltac:(unfold strconv.maxUint64; lia)) as Hu.
    destruct (string_of_uint_head _ Hnil) as (c & rest & E & Hplus & Hminus).
    rewrite E in *. apply ParseInt_unsigned; auto; lia.
  - cbn [Z.to_int NilZero.string_of_int].
    pose proof (DecimalPos.Unsigned.to_uint_nonnil p) as Hnil.
    assert (Hs : NilZero.string_of_uint (Pos.to_uint p)
                 = NilEmpty.string_of_uint (Pos.to_uint p))
      by (destruct (Pos.to_uint p); [contradiction|reflexivity..]).
    rewrite Hs.
    pose proof (ParseUint_to_uint p ltac:(unfold strconv.maxUint64; lia)) as Hu.
    change (Z.neg p) with (- Z.pos p).
    apply ParseInt_negative; [exact Hu | lia].
Qed.

(** The same through the byte slice kept in private state. *)
Lemma recorded_baseline_parses (v : Z) :
  - 2 ^ 63 <= v < 2 ^ 63 ->
  strconv.ParseInt (string_of_list_byte (list_byte_of_string (strconv.FormatInt v)))
  = (v, None).
Proof.
  intros Hr. rewrite string_of_list_byte_of_string. now apply ParseInt_FormatInt.
Qed.

(* ================================================================== *)
(** ** [applySizeRequiresReplace] *)

Section ReplacementReconciler.

Variable Quote : string -> string.

Local Abbreviation reconcile := (applySizeRequiresReplace Quote).

(** The function, branch by branch. *)
Lemma reconcile_parse_error resp bytes v e stateSize planOverwrite kind :
  strconv.ParseInt (string_of_list_byte bytes) = (v, Some e) ->
  reconcile resp (Some bytes) stateSize planOverwrite kind =
  setPlanDiagnostics resp
    (diag.AddError (PlanDiagnostics resp)
       (parseErrorSummary kind) (parseErrorDetail Quote e)).
Proof.
  intros H; unfold applySizeRequiresReplace; rewrite H; reflexivity.
Qed.

Lemma reconcile_parsed resp bytes v stateSize planOverwrite kind :
  strconv.ParseInt (string_of_list_byte bytes) = (v, None) ->
  reconcile resp (Some bytes) stateSize planOverwrite kind =
  if negb (stateSize =? v) && planOverwrite then
    mkInt64Response (Int64Value v) true
      (diag.AddWarning (PlanDiagnostics resp)
         (sizeChangedSummary kind) (sizeChangedDetail v stateSize))
  else resp.
Proof.
  intros H; unfold applySizeRequiresReplace; rewrite H; reflexivity.
Qed.

(** X1: whatever the inputs, the diagnostics that were in the response stay,
    in order, and at most one is added. *)
Lemma reconcile_append_only
  (resp : Int64Response) (baseline : option (list byte)) (stateSize : Z)
  (planOverwrite : bool) (kind : string) :
  exists tail,
    PlanDiagnostics (reconcile resp baseline stateSize planOverwrite kind)
    = (PlanDiagnostics resp ++ tail)%list
    /\ (List.length tail <= 1)%nat.
Proof.
  destruct baseline as [bytes|]; [|exists []; rewrite List.app_nil_r; split; [reflexivity | cbn; lia]].
  destruct (strconv.ParseInt (string_of_list_byte bytes)) as [v [e|]] eqn:Hparse.
  - rewrite (reconcile_parse_error _ _ _ _ _ _ _ Hparse).
    apply diag_Append_grows.
  - rewrite (reconcile_parsed _ _ _ _ _ _ Hparse).
    destruct (negb (stateSize =? v) && planOverwrite).
    + apply diag_Append_grows.
    + exists []. rewrite List.app_nil_r. split; [reflexivity | cbn; lia].
Qed.

(** C6: with an absent (nil) baseline the response comes back as it went
    in, whatever the observed size and the policy flag: no replacement is
    asked for, no plan value is set, no diagnostic is added. *)
Theorem absent_baseline_is_noop
  (resp : Int64Response) (stateSize : Z) (planOverwrite : bool) (kind : string) :
  reconcile resp None stateSize planOverwrite kind = resp.
Proof. reflexivity. Qed.

(** C7: for a baseline that parses, the response comes back unchanged
    (no replacement, no diagnostics, plan value as it was) whenever the
    parsed baseline equals the observed size or the policy flag is
    false. *)
Theorem equal_or_optout_is_noop
  (resp : Int64Response) (bytes : list byte) (v stateSize : Z)
  (planOverwrite : bool) (kind : string) :
  strconv.ParseInt (string_of_list_byte bytes) = (v, None) ->
  stateSize = v \/ planOverwrite = false ->
  reconcile resp (Some bytes) stateSize planOverwrite kind = resp.
Proof.
  intros Hparse Hcase.
  rewrite (reconcile_parsed _ _ _ _ _ _ Hparse).
  destruct Hcase as [-> | ->].
  - now rewrite Z.eqb_refl.
  - now rewrite andb_false_r.
Qed.

(** C1: for a baseline that parses to an integer different from the
    observed size, with the policy flag true, the call asks for
    replacement, pins the plan value to the parsed baseline, and adds
    exactly one Warning whose summary names the resource kind and whose
    detail cites the baseline, the observed size and the flag
    [overwrite=false].  (The framework's collection keeps no duplicates,
    hence the premise that the warning is not in it already.) *)
Theorem drift_forces_replace
  (resp : Int64Response) (bytes : list byte) (v stateSize : Z) (kind : string) :
  strconv.ParseInt (string_of_list_byte bytes) = (v, None) ->
  stateSize <> v ->
  diag.Contains (PlanDiagnostics resp)
    (diag.NewWarningDiagnostic
       (sizeChangedSummary kind) (sizeChangedDetail v stateSize)) = false ->
  let resp' := reconcile resp (Some bytes) stateSize true kind in
  let detail :=
    "Previous size: " ++ strconv.FormatInt v
    ++ " saved in state does not match current size from datastore: "
    ++ strconv.FormatInt stateSize
    ++ ". You can disable this behaviour by using overwrite=false" in
  RequiresReplace resp' = true
  /\ PlanValue resp' = Int64Value v
  /\ PlanDiagnostics resp' =
       (PlanDiagnostics resp ++
          [diag.mkDiagnostic diag.SeverityWarning
             ("The " ++ kind ++ " size in datastore has changed outside of terraform.")
             detail])%list
  /\ strings.Contains detail (strconv.FormatInt v) = true
  /\ strings.Contains detail (strconv.FormatInt stateSize) = true
  /\ strings.Contains detail "overwrite=false" = true.
Proof.
  intros Hparse Hneq Hfresh resp' detail.
  subst resp'. rewrite (reconcile_parsed _ _ _ _ _ _ Hparse).
  apply Z.eqb_neq in Hneq. rewrite Hneq. cbn [negb andb].
  unfold diag.AddWarning. rewrite (diag_Append_fresh _ _ Hfresh).
  cbn [RequiresReplace PlanValue PlanDiagnostics].
  repeat apply conj; try reflexivity.
  - subst detail. apply Contains_app_r, Contains_app_l, Contains_self.
  - subst detail. do 3 apply Contains_app_r. apply Contains_app_l, Contains_self.
  - subst detail. do 4 apply Contains_app_r. reflexivity.
Qed.

(** C4: for a non-nil baseline that does not parse, the call adds exactly
    one Error whose summary names the resource kind, whose detail names
    the key [original_state_size] and carries the text of the parse
    error; replacement flag and plan value stay as they were. *)
Theorem malformed_baseline_is_error
  (resp : Int64Response) (bytes : list byte) (v : Z) (e : strconv.NumError)
  (stateSize : Z) (planOverwrite : bool) (kind : string) :
  strconv.ParseInt (string_of_list_byte bytes) = (v, Some e) ->
  diag.Contains (PlanDiagnostics resp)
    (diag.NewErrorDiagnostic (parseErrorSummary kind) (parseErrorDetail Quote e)) = false ->
  let resp' := reconcile resp (Some bytes) stateSize planOverwrite kind in
  let summary := "Unable to convert original state " ++ kind ++ " size to int64" in
  let detail := parseErrorDetail Quote e in
  RequiresReplace resp' = RequiresReplace resp
  /\ PlanValue resp' = PlanValue resp
  /\ PlanDiagnostics resp' =
       (PlanDiagnostics resp ++ [diag.mkDiagnostic diag.SeverityError summary detail])%list
  /\ strings.Contains summary kind = true
  /\ strings.Contains detail "original_state_size" = true
  /\ strings.Contains detail (strconv.NumError_Error Quote e) = true.
Proof.
  intros Hparse Hfresh resp' summary detail.
  subst resp'. rewrite (reconcile_parse_error _ _ _ _ _ _ _ Hparse).
  unfold diag.AddError. rewrite (diag_Append_fresh _ _ Hfresh).
  cbn [setPlanDiagnostics RequiresReplace PlanValue PlanDiagnostics].
  repeat apply conj; try reflexivity.
  - subst summary. apply Contains_app_r, Contains_app_l, Contains_self.
  - subst detail. unfold parseErrorDetail. do 5 apply Contains_app_r.
    apply Contains_self.
Qed.

(** C5: whenever the call turns the replacement flag on, the baseline was
    present and parsed, and the plan value of the result is that parsed
    baseline. *)
Theorem force_replace_pins_baseline
  (resp : Int64Response) (baseline : option (list byte)) (stateSize : Z)
  (planOverwrite : bool) (kind : string) :
  RequiresReplace resp = false ->
  RequiresReplace (reconcile resp baseline stateSize planOverwrite kind) = true ->
  exists bytes v,
    baseline = Some bytes
    /\ strconv.ParseInt (string_of_list_byte bytes) = (v, None)
    /\ PlanValue (reconcile resp baseline stateSize planOverwrite kind) = Int64Value v.
Proof.
  intros Hoff Hon.
  destruct baseline as [bytes|]; [|cbn in Hon; congruence].
  destruct (strconv.ParseInt (string_of_list_byte bytes)) as [v [e|]] eqn:Hparse.
  - rewrite (reconcile_parse_error _ _ _ _ _ _ _ Hparse) in Hon.
    cbn in Hon; congruence.
  - exists bytes, v. rewrite (reconcile_parsed _ _ _ _ _ _ Hparse) in *.
    destruct (negb (stateSize =? v) && planOverwrite); [auto | congruence].
Qed.

(** C9: an empty, non-nil baseline is parsed, not skipped: the parse of
    the empty string is a syntax error, and the call adds the one Error
    of the parse-failure path, so its result differs from the result for
    an absent baseline; the replacement flag is not touched. *)
Theorem empty_baseline_is_parse_error
  (resp : Int64Response) (stateSize : Z) (planOverwrite : bool) (kind : string) :
  let e := strconv.mkNumError "ParseInt" "" strconv.ErrSyntax in
  let d := diag.NewErrorDiagnostic (parseErrorSummary kind) (parseErrorDetail Quote e) in
  diag.Contains (PlanDiagnostics resp) d = false ->
  let resp' := reconcile resp (Some []) stateSize planOverwrite kind in
  strconv.ParseInt (string_of_list_byte []) = (0, Some e)
  /\ PlanDiagnostics resp' = (PlanDiagnostics resp ++ [d])%list
  /\ diag.severity d = diag.SeverityError
  /\ RequiresReplace resp' = RequiresReplace resp
  /\ PlanValue resp' = PlanValue resp
  /\ resp' <> reconcile resp None stateSize planOverwrite kind.
Proof.
  intros e d Hfresh resp'.
  assert (Hparse : strconv.ParseInt (string_of_list_byte []) = (0, Some e))
    by reflexivity.
  assert (Hresp : resp' = setPlanDiagnostics resp (PlanDiagnostics resp ++ [d])%list).
  { unfold resp'. rewrite (reconcile_parse_error _ _ _ _ _ _ _ Hparse).
    unfold diag.AddError. fold d. now rewrite (diag_Append_fresh _ _ Hfresh). }
  rewrite Hresp.
  repeat apply conj; try assumption; try reflexivity.
  cbn [applySizeRequiresReplace]. intros Heq.
  apply (f_equal PlanDiagnostics) in Heq. cbn in Heq.
  apply (f_equal (@List.length _)) in Heq.
  rewrite List.length_app in Heq. cbn in Heq. lia.
Qed.

End ReplacementReconciler.

(* ================================================================== *)
(** ** [handleReadResult] and [handleDatastoreDeleteError] *)

Section OperationOutcome.

Variable Context : Type.
Variable RawValue : Type.
Variable ErrResourceDoesNotExist : errors.error.

Local Abbreviation classifyDelete :=
  (handleDatastoreDeleteError (RawValue := RawValue) ErrResourceDoesNotExist).

(** C2: the three outcomes of [handleReadResult].
    - No error: returns [false], the response is untouched.
    - An error whose text contains [failed to authenticate]: returns
      [true], leaves the state as it was, and adds exactly one Error
      with summary [Failed to authenticate] and the error text as detail.
    - Any other error: returns [true], removes the resource from the
      state, and adds exactly one Warning with the caller's message as
      summary and the error text as detail.
    ("Adds exactly one" is for a collection that does not hold that
    diagnostic already: the framework's collection keeps no
    duplicates.) *)
Theorem read_result_cases
  (ctx : Context) (resp : ReadResponse RawValue) (err : option errors.error)
  (notExistMessage : string) :
  let r := handleReadResult ctx resp err notExistMessage in
  (err = None -> r = (resp, false))
  /\ (forall e, err = Some e ->
        strings.Contains (errors.Error e) "failed to authenticate" = true ->
        let d := diag.mkDiagnostic diag.SeverityError
                   "Failed to authenticate" (errors.Error e) in
        snd r = true
        /\ ReadState (fst r) = ReadState resp
        /\ (diag.Contains (ReadDiagnostics resp) d = false ->
            ReadDiagnostics (fst r) = (ReadDiagnostics resp ++ [d])%list))
  /\ (forall e, err = Some e ->
        strings.Contains (errors.Error e) "failed to authenticate" = false ->
        let d := diag.mkDiagnostic diag.SeverityWarning
                   notExistMessage (errors.Error e) in
        snd r = true
        /\ Raw (ReadState (fst r)) = None
        /\ (diag.Contains (ReadDiagnostics resp) d = false ->
            ReadDiagnostics (fst r) = (ReadDiagnostics resp ++ [d])%list)).
Proof.
  intros r; subst r.
  split; [intros ->; reflexivity|].
  split; intros e -> Hauth d; unfold handleReadResult; rewrite Hauth;
    cbn [fst snd ReadState ReadDiagnostics RemoveResource Raw];
    (split; [reflexivity|]); (split; [reflexivity|]);
    intros Hfresh.
  - unfold diag.AddError. exact (diag_Append_fresh _ _ Hfresh).
  - unfold diag.AddWarning. exact (diag_Append_fresh _ _ Hfresh).
Qed.

(** C3: the outcomes of [handleDatastoreDeleteError].
    - No error, or an error that [errors.Is] the does-not-exist
      sentinel: the response is untouched (no diagnostic).
    - Otherwise an error whose text contains [unable to parse]: exactly
      one Warning, its summary naming the item kind, its detail the item
      kind and the id.
    - Any other error: exactly one Error, its summary naming the item
      kind, its detail the item kind, the id and the error text.
    The state is never touched. *)
Theorem delete_error_cases
  (resp : DeleteResponse RawValue) (err : option errors.error)
  (id itemKind : string) :
  let resp' := classifyDelete resp err id itemKind in
  (err = None -> resp' = resp)
  /\ (forall e, err = Some e ->
        errors.Is e ErrResourceDoesNotExist = true -> resp' = resp)
  /\ (forall e, err = Some e ->
        errors.Is e ErrResourceDoesNotExist = false ->
        strings.Contains (errors.Error e) "unable to parse" = true ->
        let summary := "Datastore " ++ itemKind ++ " does not exist" in
        let detail :=
          "Could not delete datastore " ++ itemKind ++ " '" ++ id
          ++ "', it does not exist or has been deleted outside of Terraform." in
        let d := diag.mkDiagnostic diag.SeverityWarning summary detail in
        DeleteState resp' = DeleteState resp
        /\ (diag.Contains (DeleteDiagnostics resp) d = false ->
            DeleteDiagnostics resp' = (DeleteDiagnostics resp ++ [d])%list)
        /\ strings.Contains summary itemKind = true
        /\ strings.Contains detail itemKind = true
        /\ strings.Contains detail id = true)
  /\ (forall e, err = Some e ->
        errors.Is e ErrResourceDoesNotExist = false ->
        strings.Contains (errors.Error e) "unable to parse" = false ->
        let summary := "Error deleting datastore " ++ itemKind in
        let detail :=
          "Could not delete datastore " ++ itemKind ++ " '" ++ id
          ++ "', unexpected error: " ++ errors.Error e in
        let d := diag.mkDiagnostic diag.SeverityError summary detail in
        DeleteState resp' = DeleteState resp
        /\ (diag.Contains (DeleteDiagnostics resp) d = false ->
            DeleteDiagnostics resp' = (DeleteDiagnostics resp ++ [d])%list)
        /\ strings.Contains summary itemKind = true
        /\ strings.Contains detail itemKind = true
        /\ strings.Contains detail id = true
        /\ strings.Contains detail (errors.Error e) = true).
Proof.
  intros resp'; subst resp'.
  split; [intros ->; reflexivity|].
  split; [intros e -> His; unfold handleDatastoreDeleteError; now rewrite His|].
  split; intros e -> His Hparse summary detail d;
    unfold handleDatastoreDeleteError; rewrite His, Hparse;
    cbn [DeleteState DeleteDiagnostics];
    (split; [reflexivity|]); (split; [intros Hfresh|]).
  - unfold diag.AddWarning. exact (diag_Append_fresh _ _ Hfresh).
  - subst summary detail. repeat apply conj.
    + apply Contains_app_r, Contains_app_l, Contains_self.
    + apply Contains_app_r, Contains_app_l, Contains_self.
    + do 3 apply Contains_app_r. apply Contains_app_l, Contains_self.
  - unfold diag.AddError. exact (diag_Append_fresh _ _ Hfresh).
  - subst summary detail. repeat apply conj.
    + apply Contains_app_r, Contains_self.
    + apply Contains_app_r, Contains_app_l, Contains_self.
    + do 3 apply Contains_app_r. apply Contains_app_l, Contains_self.
    + do 5 apply Contains_app_r. apply Contains_self.
Qed.

(** Neither helper ever takes a diagnostic away or adds more than one. *)
Lemma read_append_only (ctx : Context) (resp : ReadResponse RawValue) err msg :
  exists tail,
    ReadDiagnostics (fst (handleReadResult ctx resp err msg))
    = (ReadDiagnostics resp ++ tail)%list
    /\ (List.length tail <= 1)%nat.
Proof.
  unfold handleReadResult. destruct err as [e|].
  - destruct (strings.Contains (errors.Error e) "failed to authenticate");
      apply diag_Append_grows.
  - exists []. rewrite List.app_nil_r. split; [reflexivity | cbn; lia].
Qed.

Lemma delete_append_only (resp : DeleteResponse RawValue) err id itemKind :
  exists tail,
    DeleteDiagnostics (classifyDelete resp err id itemKind)
    = (DeleteDiagnostics resp ++ tail)%list
    /\ (List.length tail <= 1)%nat.
Proof.
  assert (Hnone : exists tail,
             DeleteDiagnostics resp = (DeleteDiagnostics resp ++ tail)%list
             /\ (List.length tail <= 1)%nat)
    by (exists []; rewrite List.app_nil_r; split; [reflexivity | cbn; lia]).
  unfold handleDatastoreDeleteError. destruct err as [e|]; [|exact Hnone].
  destruct (errors.Is e ErrResourceDoesNotExist); [exact Hnone|].
  destruct (strings.Contains (errors.Error e) "unable to parse");
    apply diag_Append_grows.
Qed.

(** C10: the sentinel comes first.  For an error that [errors.Is] the
    does-not-exist sentinel the response is untouched, whatever its text
    says; the same holds for every error that wraps it with [%w],
    whatever text the wrapper carries (so also a text that contains
    [unable to parse]). *)
Theorem sentinel_takes_precedence
  (resp : DeleteResponse RawValue) (e : errors.error) (id itemKind : string) :
  errors.Is e ErrResourceDoesNotExist = true ->
  classifyDelete resp (Some e) id itemKind = resp
  /\ forall msg : string,
       errors.Is (errors.wrapError msg e) ErrResourceDoesNotExist = true
       /\ classifyDelete resp (Some (errors.wrapError msg e)) id itemKind = resp.
Proof.
  intros His.
  assert (Hstep : forall x, errors.Is x ErrResourceDoesNotExist = true ->
                            classifyDelete resp (Some x) id itemKind = resp).
  { intros x Hx. unfold handleDatastoreDeleteError. now rewrite Hx. }
  split; [now apply Hstep|].
  intros msg.
  pose proof (errors_Is_wrapError msg _ _ His) as Hw.
  split; [exact Hw | now apply Hstep].
Qed.

End OperationOutcome.

(* ================================================================== *)
(** ** The parser on concrete inputs *)

Example ParseInt_100 : strconv.ParseInt "100" = (100, None).
Proof. reflexivity. Qed.

Example ParseInt_signed :
  strconv.ParseInt "+42" = (42, None) /\ strconv.ParseInt "-42" = (-42, None).
Proof. split; reflexivity. Qed.

Example ParseInt_min_int64 :
  strconv.ParseInt "-9223372036854775808" = (- 2 ^ 63, None).
Proof. reflexivity. Qed.

Example ParseInt_out_of_range :
  strconv.ParseInt "9223372036854775808"
  = (2 ^ 63 - 1, Some (strconv.rangeError "ParseInt" "9223372036854775808")).
Proof. reflexivity. Qed.

Example ParseInt_not_a_number :
  strconv.ParseInt "12a" = (0, Some (strconv.syntaxError "ParseInt" "12a"))
  /\ strconv.ParseInt "-" = (0, Some (strconv.syntaxError "ParseInt" "-"))
  /\ strconv.ParseInt " 1" = (0, Some (strconv.syntaxError "ParseInt" " 1")).
Proof. repeat split; reflexivity. Qed.

(* ================================================================== *)
(** ** The theorems at concrete inputs *)

(** Baseline 100, observed 150, policy true: replacement, plan value 100,
    one Warning that mentions 100 and 150. *)
Lemma drift_forces_replace_witness :
  let resp' :=
    applySizeRequiresReplace quotePlain (freshPlan 150)
      (Some (list_byte_of_string "100")) 150 true "file" in
  let detail :=
    "Previous size: 100 saved in state does not match current size from datastore: 150. You can disable this behaviour by using overwrite=false" in
  strconv.ParseInt (string_of_list_byte (list_byte_of_string "100")) = (100, None)
  /\ 150 <> 100
  /\ RequiresReplace resp' = true
  /\ PlanValue resp' = Int64Value 100
  /\ PlanDiagnostics resp' =
       [diag.mkDiagnostic diag.SeverityWarning
          "The file size in datastore has changed outside of terraform." detail]
  /\ strings.Contains detail "100" = true
  /\ strings.Contains detail "150" = true
  /\ strings.Contains detail "overwrite=false" = true.
Proof.
  split; [reflexivity|].
  split; [discriminate|].
  exact (drift_forces_replace quotePlain (freshPlan 150)
           (list_byte_of_string "100") 100 150 "file"
           eq_refl (proj1 (Z.eqb_neq 150 100) eq_refl) eq_refl).
Defined.

Lemma equal_or_optout_is_noop_witness :
  strconv.ParseInt (string_of_list_byte (list_byte_of_string "100")) = (100, None)
  /\ applySizeRequiresReplace quotePlain (freshPlan 100)
       (Some (list_byte_of_string "100")) 100 true "file" = freshPlan 100
  /\ applySizeRequiresReplace quotePlain (freshPlan 150)
       (Some (list_byte_of_string "100")) 150 false "file" = freshPlan 150.
Proof.
  split; [reflexivity|].
  split.
  - exact (equal_or_optout_is_noop quotePlain (freshPlan 100)
             (list_byte_of_string "100") 100 100 true "file" eq_refl (or_introl eq_refl)).
  - exact (equal_or_optout_is_noop quotePlain (freshPlan 150)
             (list_byte_of_string "100") 100 150 false "file" eq_refl (or_intror eq_refl)).
Defined.

Lemma malformed_baseline_is_error_witness :
  let e := strconv.syntaxError "ParseInt" "12a" in
  let resp' :=
    applySizeRequiresReplace quotePlain (freshPlan 150)
      (Some (list_byte_of_string "12a")) 150 true "file" in
  let parseText :=
    "strconv.ParseInt: parsing " ++ dquote ++ "12a" ++ dquote ++ ": invalid syntax" in
  let detail :=
    "Unexpected error in parsing string to int64, key original_state_size. Please retry the operation or report this issue to the provider developers."
    ++ LF ++ LF ++ "Error: " ++ parseText in
  strconv.ParseInt (string_of_list_byte (list_byte_of_string "12a")) = (0, Some e)
  /\ RequiresReplace resp' = false
  /\ PlanValue resp' = Int64Value 150
  /\ PlanDiagnostics resp' =
       [diag.mkDiagnostic diag.SeverityError
          "Unable to convert original state file size to int64" detail]
  /\ strings.Contains "Unable to convert original state file size to int64" "file" = true
  /\ strings.Contains detail "original_state_size" = true
  /\ strings.Contains detail parseText = true.
Proof.
  split; [reflexivity|].
  exact (malformed_baseline_is_error quotePlain (freshPlan 150)
           (list_byte_of_string "12a") 0 (strconv.syntaxError "ParseInt" "12a")
           150 true "file" eq_refl eq_refl).
Defined.

Lemma force_replace_pins_baseline_witness :
  let resp' :=
    applySizeRequiresReplace quotePlain (freshPlan 150)
      (Some (list_byte_of_string "100")) 150 true "file" in
  RequiresReplace (freshPlan 150) = false
  /\ RequiresReplace resp' = true
  /\ exists bytes v,
       Some (list_byte_of_string "100") = Some bytes
       /\ strconv.ParseInt (string_of_list_byte bytes) = (v, None)
       /\ PlanValue resp' = Int64Value v.
Proof.
  split; [reflexivity|].
  split; [reflexivity|].
  exact (force_replace_pins_baseline quotePlain (freshPlan 150)
           (Some (list_byte_of_string "100")) 150 true "file" eq_refl eq_refl).
Defined.

Lemma empty_baseline_is_parse_error_witness :
  let e := strconv.syntaxError "ParseInt" "" in
  let d := diag.NewErrorDiagnostic (parseErrorSummary "file") (parseErrorDetail quotePlain e) in
  let resp' := applySizeRequiresReplace quotePlain (freshPlan 150) (Some []) 150 true "file" in
  diag.Contains (PlanDiagnostics (freshPlan 150)) d = false
  /\ strconv.ParseInt "" = (0, Some e)
  /\ PlanDiagnostics resp' = [d]
  /\ diag.severity d = diag.SeverityError
  /\ RequiresReplace resp' = false
  /\ PlanValue resp' = Int64Value 150
  /\ resp' <> applySizeRequiresReplace quotePlain (freshPlan 150) None 150 true "file".
Proof.
  split; [reflexivity|].
  exact (empty_baseline_is_parse_error quotePlain (freshPlan 150) 150 true "file" eq_refl).
Defined.

Lemma read_result_cases_witness :
  let auth := handleReadResult tt freshRead (Some authFailure) "msg" in
  let gone := handleReadResult tt freshRead (Some objectNotFound) "msg" in
  handleReadResult tt freshRead None "msg" = (freshRead, false)
  /\ (strings.Contains (errors.Error authFailure) "failed to authenticate" = true
      /\ snd auth = true
      /\ ReadState (fst auth) = ReadState freshRead
      /\ ReadDiagnostics (fst auth) =
           [diag.mkDiagnostic diag.SeverityError "Failed to authenticate"
              "failed to authenticate user root@pam: 401 Unauthorized"])
  /\ (strings.Contains (errors.Error objectNotFound) "failed to authenticate" = false
      /\ snd gone = true
      /\ Raw (ReadState (fst gone)) = None
      /\ ReadDiagnostics (fst gone) =
           [diag.mkDiagnostic diag.SeverityWarning "msg" "object xyz not found"]).
Proof.
  intros auth gone.
  split; [|split].
  - exact (proj1 (read_result_cases unit nat tt freshRead None "msg") eq_refl).
  - split; [reflexivity|].
    destruct (proj1 (proj2 (read_result_cases unit nat tt freshRead
                              (Some authFailure) "msg"))
                authFailure eq_refl eq_refl) as (Hh & Hs & Hd).
    exact (conj Hh (conj Hs (Hd eq_refl))).
  - split; [reflexivity|].
    destruct (proj2 (proj2 (read_result_cases unit nat tt freshRead
                              (Some objectNotFound) "msg"))
                objectNotFound eq_refl eq_refl) as (Hh & Hs & Hd).
    exact (conj Hh (conj Hs (Hd eq_refl))).
Defined.

Lemma delete_error_cases_witness :
  let call := handleDatastoreDeleteError sampleSentinel freshDelete in
  call None "x" "disk" = freshDelete
  /\ (errors.Is sampleSentinel sampleSentinel = true
      /\ call (Some sampleSentinel) "x" "disk" = freshDelete)
  /\ (errors.Is badVolumeID sampleSentinel = false
      /\ strings.Contains (errors.Error badVolumeID) "unable to parse" = true
      /\ DeleteState (call (Some badVolumeID) "x" "disk") = DeleteState freshDelete
      /\ DeleteDiagnostics (call (Some badVolumeID) "x" "disk") =
           [diag.mkDiagnostic diag.SeverityWarning "Datastore disk does not exist"
              "Could not delete datastore disk 'x', it does not exist or has been deleted outside of Terraform."])
  /\ (errors.Is serverError sampleSentinel = false
      /\ strings.Contains (errors.Error serverError) "unable to parse" = false
      /\ DeleteState (call (Some serverError) "x" "disk") = DeleteState freshDelete
      /\ DeleteDiagnostics (call (Some serverError) "x" "disk") =
           [diag.mkDiagnostic diag.SeverityError "Error deleting datastore disk"
              "Could not delete datastore disk 'x', unexpected error: received an HTTP 500 response"]).
Proof.
  intros call.
  pose (T := fun err => delete_error_cases nat sampleSentinel freshDelete err "x" "disk").
  split; [|split; [|split]].
  - exact (proj1 (T None) eq_refl).
  - split; [reflexivity|].
    exact (proj1 (proj2 (T (Some sampleSentinel))) sampleSentinel eq_refl eq_refl).
  - split; [reflexivity|]. split; [reflexivity|].
    destruct (proj1 (proj2 (proj2 (T (Some badVolumeID))))
                badVolumeID eq_refl eq_refl eq_refl) as (Hs & Hd & _).
    exact (conj Hs (Hd eq_refl)).
  - split; [reflexivity|]. split; [reflexivity|].
    destruct (proj2 (proj2 (proj2 (T (Some serverError))))
                serverError eq_refl eq_refl eq_refl) as (Hs & Hd & _).
    exact (conj Hs (Hd eq_refl)).
Defined.

(** A wrapper whose own text contains [unable to parse] around the
    sentinel: no diagnostic. *)
Lemma sentinel_takes_precedence_witness :
  errors.Is sampleSentinel sampleSentinel = true
  /\ strings.Contains (errors.Error wrappedSentinel) "unable to parse" = true
  /\ errors.Is wrappedSentinel sampleSentinel = true
  /\ handleDatastoreDeleteError sampleSentinel freshDelete
       (Some wrappedSentinel) "x" "disk" = freshDelete.
Proof.
  split; [reflexivity|]. split; [reflexivity|].
  exact (proj2 (sentinel_takes_precedence nat sampleSentinel freshDelete
                  sampleSentinel "x" "disk" eq_refl)
           "unable to parse volume: the requested resource does not exist").
Defined.

(* ================================================================== *)
(** ** Further facts about the library models *)

Lemma diag_Equal_refl (d : diag.Diagnostic) : diag.Equal d d = true.
Proof.
  unfold diag.Equal. rewrite !String.eqb_refl.
  destruct (diag.severity d); reflexivity.
Qed.

Lemma diag_Equal_severity (x d : diag.Diagnostic) :
  diag.Equal x d = true -> diag.severity x = diag.severity d.
Proof.
  unfold diag.Equal. intros H.
  apply andb_true_iff in H as [H _]. apply andb_true_iff in H as [H _].
  destruct (diag.severity x), (diag.severity d); (reflexivity || discriminate).
Qed.

(** Adding the same diagnostic a second time changes nothing. *)
Lemma diag_Append_idem (ds : diag.Diagnostics) (d : diag.Diagnostic) :
  diag.Append (diag.Append ds d) d = diag.Append ds d.
Proof.
  apply diag_Append_present, diag_Contains_Append.
Qed.

Lemma HasError_Contains (ds : diag.Diagnostics) (d : diag.Diagnostic) :
  diag.Contains ds d = true ->
  diag.severity d = diag.SeverityError ->
  HasError ds = true.
Proof.
  unfold diag.Contains, HasError. intros Hc Hsev.
  apply existsb_exists in Hc as (x & Hin & Heq).
  apply existsb_exists. exists x. split; [exact Hin|].
  rewrite (diag_Equal_severity _ _ Heq), Hsev. reflexivity.
Qed.

Lemma HasError_Append (ds : diag.Diagnostics) (d : diag.Diagnostic) :
  HasError (diag.Append ds d)
  = HasError ds || diag.Severity_eqb (diag.severity d) diag.SeverityError.
Proof.
  unfold diag.Append. destruct (diag.Contains ds d) eqn:Hc.
  - destruct (diag.Severity_eqb (diag.severity d) diag.SeverityError) eqn:Hs.
    + rewrite (HasError_Contains ds d Hc); [reflexivity|].
      destruct (diag.severity d); (reflexivity || discriminate).
    + now rewrite orb_false_r.
  - unfold HasError. rewrite List.existsb_app. cbn [existsb].
    now rewrite orb_false_r.
Qed.

(** The bytes [digit] accepts in base 10 are the decimal digits. *)
Lemma digit_isDecimalDigit (c : ascii) :
  strconv.digit c = (if isDecimalDigit c then Some (strconv.byteval c - 48) else None).
Proof.
  destruct c as [[] [] [] [] [] [] [] []]; vm_compute; reflexivity.
Qed.

(** The loop of [ParseUint] reports an error when some byte is not a
    decimal digit: a syntax error, or a range error met earlier, which
    comes with the largest value. *)
Lemma parseLoop_not_digits (s0 : string) (cutoff maxVal : Z) (s : string) (n : Z) :
  allDigits s = false ->
  strconv.parseLoop s0 cutoff maxVal s n = (0, Some (strconv.syntaxError "ParseUint" s0))
  \/ strconv.parseLoop s0 cutoff maxVal s n
     = (maxVal, Some (strconv.rangeError "ParseUint" s0)).
Proof.
  revert n; induction s as [|c s IH]; intros n H; [discriminate|].
  cbn [allDigits] in H. cbn [strconv.parseLoop].
  rewrite digit_isDecimalDigit.
  destruct (isDecimalDigit c); [|now left].
  cbn [andb] in H.
  destruct (n >=? cutoff); [now right|].
  cbv zeta.
  match goal with |- context [if ?b then _ else _] => destruct b end; [now right|].
  apply IH, H.
Qed.

Lemma ParseUint_not_digits (s : string) :
  s = "" \/ allDigits s = false ->
  strconv.ParseUint s = (0, Some (strconv.syntaxError "ParseUint" s))
  \/ strconv.ParseUint s
     = (strconv.maxUint64, Some (strconv.rangeError "ParseUint" s)).
Proof.
  intros [-> | H]; [now left|].
  destruct s as [|c s]; [discriminate|].
  unfold strconv.ParseUint.
  change (strconv.toUint64 (Z.shiftl 1 strconv.bitSize - 1)) with strconv.maxUint64.
  now apply parseLoop_not_digits.
Qed.

(** [ParseInt] reports an error when, after one optional sign, the text is
    empty or has a byte that is not a decimal digit. *)
Lemma ParseInt_not_digits (s : string) :
  unsignedPart s = "" \/ allDigits (unsignedPart s) = false ->
  exists v e, strconv.ParseInt s = (v, Some e).
Proof.
  intros H. unfold strconv.ParseInt. destruct s as [|c rest]; [eauto|].
  cbn [unsignedPart] in H.
  assert (Hu : forall neg s,
             (if Ascii.eqb c "+" then (false, rest)
              else if Ascii.eqb c "-" then (true, rest)
              else (false, String c rest)) = (neg, s) ->
             s = "" \/ allDigits s = false).
  { intros neg s E.
    destruct (Ascii.eqb c "+"); [inversion E; subst; exact H|].
    destruct (Ascii.eqb c "-"); inversion E; subst; exact H. }
  destruct (if Ascii.eqb c "+" then (false, rest)
            else if Ascii.eqb c "-" then (true, rest)
            else (false, String c rest)) as [neg s].
  specialize (Hu neg s eq_refl).
  destruct (ParseUint_not_digits s Hu) as [-> | ->]; [cbn; eauto|].
  cbv beta iota zeta.
  change (strconv.rangeError "ParseUint" s)
    with (strconv.mkNumError "ParseUint" s strconv.ErrRange).
  cbv iota.
  change (strconv.toUint64 (Z.shiftl 1 (strconv.bitSize - 1))) with (2 ^ 63).
  change (strconv.maxUint64 >=? 2 ^ 63) with true.
  change (strconv.maxUint64 >? 2 ^ 63) with true.
  destruct neg; cbn [negb andb]; eauto.
Qed.
(** The loop of [ParseUint] on decimal digits whose number does not fit
    [uint64]: a range error with the largest value. *)
Lemma parseLoop_overflow s0 d acc :
  0 <= acc <= strconv.maxUint64 -> digitsValue d acc > strconv.maxUint64 ->
  strconv.parseLoop s0 (strconv.maxUint64 / strconv.base + 1) strconv.maxUint64
    (NilEmpty.string_of_uint d) acc
  = (strconv.maxUint64, Some (strconv.rangeError "ParseUint" s0)).
Proof.
  change (strconv.maxUint64 / strconv.base + 1) with 1844674407370955162.
  change strconv.maxUint64 with 18446744073709551615.
  revert acc; induction d as [|d IHd|d IHd|d IHd|d IHd|d IHd|d IHd|d IHd|d IHd|d IHd|d IHd];
    intros acc H0 Hover; [cbn [digitsValue] in Hover; lia|..].
  all: cbn [digitsValue] in Hover.
  all: cbn [NilEmpty.string_of_uint strconv.parseLoop]; eval_digit; cbv iota beta.
  all: destruct (acc >=? 1844674407370955162) eqn:Hc; [reflexivity|].
  all: unfold strconv.toUint64, strconv.base.
  all: rewrite (Z.mod_small (acc * 10)) by lia.
  all: match type of Hover with digitsValue _ ?a > _ =>
         destruct (Z_lt_dec a (2 ^ 64)) as [Hfit|Hwrap];
         [ specialize (IHd a ltac:(lia) Hover)
         | clear IHd ]
       end.
  all: match goal with |- context [(?x mod 2 ^ 64)] =>
         first
           [ rewrite (Z.mod_small x) by lia
           | replace (x mod 2 ^ 64) with (x - 2 ^ 64)
               by (apply Z.mod_unique with (q := 1); lia) ]
       end.
  all: match goal with |- context [(?x <? ?y) || (?z >? ?w)] =>
         destruct (x <? y) eqn:H1; destruct (z >? w) eqn:H2
       end; cbn [orb]; try reflexivity; try (exfalso; lia).
  all: match goal with |- strconv.parseLoop _ _ _ _ ?a = _ =>
         match type of IHd with strconv.parseLoop _ _ _ _ ?b = _ =>
           replace a with b by lia end end; exact IHd.
Qed.

Lemma ParseUint_to_uint_overflow p :
  Zpos p > strconv.maxUint64 ->
  strconv.ParseUint (NilEmpty.string_of_uint (Pos.to_uint p))
  = (strconv.maxUint64,
     Some (strconv.rangeError "ParseUint" (NilEmpty.string_of_uint (Pos.to_uint p)))).
Proof.
  intros Hover.
  assert (Hv : digitsValue (Pos.to_uint p) 0 = Zpos p).
  { rewrite digitsValue_of_uint, DecimalPos.Unsigned.of_to. reflexivity. }
  pose proof (parseLoop_overflow (NilEmpty.string_of_uint (Pos.to_uint p))
                (Pos.to_uint p) 0 ltac:(unfold strconv.maxUint64; lia)
                ltac:(rewrite Hv; exact Hover)) as H.
  pose proof (DecimalPos.Unsigned.to_uint_nonnil p) as Hnil.
  destruct (Pos.to_uint p); [contradiction|..]; exact H.
Qed.

(** What [ParseUint] returns for the decimal text of a positive number. *)
Lemma ParseUint_to_uint_cases p :
  exists un err,
    strconv.ParseUint (NilEmpty.string_of_uint (Pos.to_uint p)) = (un, err)
    /\ (Zpos p <= strconv.maxUint64 -> un = Zpos p /\ err = None)
    /\ (Zpos p > strconv.maxUint64 ->
        un = strconv.maxUint64
        /\ err = Some (strconv.rangeError "ParseUint"
                         (NilEmpty.string_of_uint (Pos.to_uint p)))).
Proof.
  destruct (Z_le_gt_dec (Zpos p) strconv.maxUint64) as [Hle|Hgt].
  - exists (Zpos p), None. rewrite (ParseUint_to_uint p Hle).
    repeat split; lia.
  - eexists _, _. rewrite (ParseUint_to_uint_overflow p Hgt).
    repeat split; lia.
Qed.

Lemma ParseInt_unsigned_range c rest un err :
  Ascii.eqb c "+" = false -> Ascii.eqb c "-" = false ->
  strconv.ParseUint (String c rest) = (un, err) ->
  (err = None \/ err = Some (strconv.rangeError "ParseUint" (String c rest))) ->
  un >= 2 ^ 63 ->
  strconv.ParseInt (String c rest)
  = (2 ^ 63 - 1, Some (strconv.rangeError "ParseInt" (String c rest))).
Proof.
  intros Hplus Hminus Hu Herr Hr.
  unfold strconv.ParseInt. rewrite Hplus, Hminus, Hu.
  change (strconv.toUint64 (Z.shiftl 1 (strconv.bitSize - 1))) with (2 ^ 63).
  assert (Hc : (un >=? 2 ^ 63) = true) by lia.
  destruct Herr as [-> | ->]; cbv iota beta; cbn [negb andb]; rewrite Hc; reflexivity.
Qed.

Lemma ParseInt_negative_range s un err :
  strconv.ParseUint s = (un, err) ->
  (err = None \/ err = Some (strconv.rangeError "ParseUint" s)) ->
  un > 2 ^ 63 ->
  strconv.ParseInt (String "-" s)
  = (- 2 ^ 63, Some (strconv.rangeError "ParseInt" (String "-" s))).
Proof.
  intros Hu Herr Hr.
  unfold strconv.ParseInt.
  change (Ascii.eqb "-" "+") with false. change (Ascii.eqb "-" "-") with true.
  cbv iota. rewrite Hu.
  change (strconv.toUint64 (Z.shiftl 1 (strconv.bitSize - 1))) with (2 ^ 63).
  assert (Hc : (un >? 2 ^ 63) = true) by lia.
  destruct Herr as [-> | ->]; cbv iota beta; cbn [negb andb]; rewrite Hc; reflexivity.
Qed.

(** [ParseInt] on the decimal text of a number outside [int64]: a range
    error, with the nearest bound as value. *)
Theorem ParseInt_FormatInt_out_of_range v :
  (2 ^ 63 <= v ->
   strconv.ParseInt (strconv.FormatInt v)
   = (2 ^ 63 - 1, Some (strconv.rangeError "ParseInt" (strconv.FormatInt v))))
  /\ (v < - 2 ^ 63 ->
      strconv.ParseInt (strconv.FormatInt v)
      = (- 2 ^ 63, Some (strconv.rangeError "ParseInt" (strconv.FormatInt v)))).
Proof.
  unfold strconv.FormatInt.
  destruct v as [|p|p]; (split; intros Hr; [try lia | try lia]).
  - cbn [Z.to_int NilZero.string_of_int].
    pose proof (DecimalPos.Unsigned.to_uint_nonnil p) as Hnil.
    assert (Hs : NilZero.string_of_uint (Pos.to_uint p)
                 = NilEmpty.string_of_uint (Pos.to_uint p))
      by (destruct (Pos.to_uint p); [contradiction|reflexivity..]).
    rewrite Hs.
    destruct (ParseUint_to_uint_cases p) as (un & err & Hu & Hfit & Hover).
    destruct (string_of_uint_head _ Hnil) as (c & rest & E & Hplus & Hminus).
    rewrite E in *.
    apply (ParseInt_unsigned_range c rest un err Hplus Hminus Hu).
    + destruct (Z_le_gt_dec (Zpos p) strconv.maxUint64) as [Hle|Hgt];
        [left; apply Hfit, Hle | right; apply Hover, Hgt].
    + destruct (Z_le_gt_dec (Zpos p) strconv.maxUint64) as [Hle|Hgt];
        [destruct (Hfit Hle) as [-> _]; lia
        |destruct (Hover Hgt) as [-> _]; unfold strconv.maxUint64; lia].
  - cbn [Z.to_int NilZero.string_of_int].
    pose proof (DecimalPos.Unsigned.to_uint_nonnil p) as Hnil.
    assert (Hs : NilZero.string_of_uint (Pos.to_uint p)
                 = NilEmpty.string_of_uint (Pos.to_uint p))
      by (destruct (Pos.to_uint p); [contradiction|reflexivity..]).
    rewrite Hs.
    destruct (ParseUint_to_uint_cases p) as (un & err & Hu & Hfit & Hover).
    apply (ParseInt_negative_range _ un err Hu).
    + destruct (Z_le_gt_dec (Zpos p) strconv.maxUint64) as [Hle|Hgt];
        [left; apply Hfit, Hle | right; apply Hover, Hgt].
    + destruct (Z_le_gt_dec (Zpos p) strconv.maxUint64) as [Hle|Hgt];
        [destruct (Hfit Hle) as [-> _]; lia
        |destruct (Hover Hgt) as [-> _]; unfold strconv.maxUint64; lia].
Qed.
(** [errors.Is] finds a plain value wherever it sits in the tree of
    wrapped errors. *)
Lemma errors_Is_inChain (ident : nat) (text : string) (err : errors.error) :
  inChain (errors.errorValue ident text) err ->
  errors.Is err (errors.errorValue ident text) = true.
Proof.
  induction 1 as [|msg inner _ IH|msg errs e Hin _ IH].
  - cbn. now rewrite Nat.eqb_refl, String.eqb_refl.
  - now apply errors_Is_wrapError.
  - change (errors.equal (errors.wrapErrors msg errs) (errors.errorValue ident text)
            || existsb (fun x => errors.Is x (errors.errorValue ident text)) errs = true).
    apply orb_true_iff; right. apply existsb_exists. now exists e.
Qed.

(* ================================================================== *)
(** ** More on [applySizeRequiresReplace] *)

Section ReconcilerBehaviour.

Variable Quote : string -> string.

Local Abbreviation reconcile := (applySizeRequiresReplace Quote).

(** X2: the call never clears a replacement that was already asked for
    (by an earlier plan modifier). *)
Theorem reconcile_never_clears_replace
  (resp : Int64Response) (baseline : option (list byte)) (stateSize : Z)
  (planOverwrite : bool) (kind : string) :
  RequiresReplace resp = true ->
  RequiresReplace (reconcile resp baseline stateSize planOverwrite kind) = true.
Proof.
  intros Hon.
  destruct baseline as [bytes|]; [|exact Hon].
  destruct (strconv.ParseInt (string_of_list_byte bytes)) as [v [e|]] eqn:Hparse.
  - rewrite (reconcile_parse_error _ _ _ _ _ _ _ _ Hparse). exact Hon.
  - rewrite (reconcile_parsed _ _ _ _ _ _ _ Hparse).
    destruct (negb (stateSize =? v) && planOverwrite); [reflexivity | exact Hon].
Qed.

(** X3: the plan value is changed only in one way: to a known value, the
    parsed baseline, which is an [int64] different from the observed
    size, under [overwrite] true and together with the replacement
    flag.  The call never makes the plan value null or unknown. *)
Theorem plan_value_changes_only_to_baseline
  (resp : Int64Response) (baseline : option (list byte)) (stateSize : Z)
  (planOverwrite : bool) (kind : string) :
  PlanValue (reconcile resp baseline stateSize planOverwrite kind) <> PlanValue resp ->
  exists bytes v,
    baseline = Some bytes
    /\ strconv.ParseInt (string_of_list_byte bytes) = (v, None)
    /\ - 2 ^ 63 <= v < 2 ^ 63
    /\ v <> stateSize
    /\ planOverwrite = true
    /\ PlanValue (reconcile resp baseline stateSize planOverwrite kind) = Int64Value v
    /\ RequiresReplace (reconcile resp baseline stateSize planOverwrite kind) = true.
Proof.
  intros Hchg.
  destruct baseline as [bytes|]; [|now contradiction Hchg].
  destruct (strconv.ParseInt (string_of_list_byte bytes)) as [v [e|]] eqn:Hparse.
  - rewrite (reconcile_parse_error _ _ _ _ _ _ _ _ Hparse) in Hchg.
    now contradiction Hchg.
  - exists bytes, v.
    rewrite (reconcile_parsed _ _ _ _ _ _ _ Hparse) in *.
    destruct (stateSize =? v) eqn:Heq; cbn [negb andb] in *;
      [now contradiction Hchg|].
    destruct planOverwrite; [|now contradiction Hchg].
    apply Z.eqb_neq in Heq.
    repeat apply conj; try reflexivity; try congruence.
    + apply (ParseInt_range _ _ Hparse).
    + apply (ParseInt_range _ _ Hparse).
Qed.

(** X4: the response has an Error after the call exactly when it had one
    before or the baseline is present and does not parse.  Drift alone
    never makes the plan fail. *)
Theorem reconcile_HasError
  (resp : Int64Response) (baseline : option (list byte)) (stateSize : Z)
  (planOverwrite : bool) (kind : string) :
  HasError (PlanDiagnostics (reconcile resp baseline stateSize planOverwrite kind))
  = HasError (PlanDiagnostics resp)
    || match baseline with
       | None => false
       | Some bytes =>
           match snd (strconv.ParseInt (string_of_list_byte bytes)) with
           | Some _ => true
           | None => false
           end
       end.
Proof.
  destruct baseline as [bytes|]; [|now rewrite orb_false_r].
  destruct (strconv.ParseInt (string_of_list_byte bytes)) as [v [e|]] eqn:Hparse;
    cbn [snd].
  - rewrite (reconcile_parse_error _ _ _ _ _ _ _ _ Hparse).
    cbn [setPlanDiagnostics PlanDiagnostics]. unfold diag.AddError.
    now rewrite HasError_Append.
  - rewrite (reconcile_parsed _ _ _ _ _ _ _ Hparse), orb_false_r.
    destruct (negb (stateSize =? v) && planOverwrite); [|reflexivity].
    cbn [PlanDiagnostics]. unfold diag.AddWarning.
    rewrite HasError_Append. cbn. now rewrite orb_false_r.
Qed.

(** X5: a second call with the same arguments changes nothing: the
    diagnostic of the first call is not added again. *)
Theorem reconcile_idempotent
  (resp : Int64Response) (baseline : option (list byte)) (stateSize : Z)
  (planOverwrite : bool) (kind : string) :
  reconcile (reconcile resp baseline stateSize planOverwrite kind)
    baseline stateSize planOverwrite kind
  = reconcile resp baseline stateSize planOverwrite kind.
Proof.
  destruct baseline as [bytes|]; [|reflexivity].
  destruct (strconv.ParseInt (string_of_list_byte bytes)) as [v [e|]] eqn:Hparse.
  - rewrite !(reconcile_parse_error _ _ _ _ _ _ _ _ Hparse).
    unfold setPlanDiagnostics, diag.AddError. cbn [PlanValue RequiresReplace PlanDiagnostics].
    now rewrite diag_Append_idem.
  - rewrite !(reconcile_parsed _ _ _ _ _ _ _ Hparse).
    destruct (negb (stateSize =? v) && planOverwrite); [|reflexivity].
    unfold diag.AddWarning. cbn [PlanDiagnostics].
    now rewrite diag_Append_idem.
Qed.

(** X6: a baseline that holds the decimal text of an [int64] [v] (what
    [strconv.FormatInt] writes) always parses back to [v].  So with the
    observed size equal to [v], or [overwrite] false, nothing happens; with
    a different observed size and [overwrite] true replacement is asked
    for, the plan value is [v] and the response holds the warning. *)
Theorem recorded_baseline_reconciled
  (resp : Int64Response) (v stateSize : Z) (planOverwrite : bool) (kind : string) :
  - 2 ^ 63 <= v < 2 ^ 63 ->
  let baseline := Some (list_byte_of_string (strconv.FormatInt v)) in
  let resp' := reconcile resp baseline stateSize planOverwrite kind in
  (stateSize = v \/ planOverwrite = false -> resp' = resp)
  /\ (stateSize <> v -> planOverwrite = true ->
      RequiresReplace resp' = true
      /\ PlanValue resp' = Int64Value v
      /\ diag.Contains (PlanDiagnostics resp')
           (diag.NewWarningDiagnostic (sizeChangedSummary kind)
              (sizeChangedDetail v stateSize)) = true).
Proof.
  intros Hr baseline resp'. subst resp' baseline.
  rewrite (reconcile_parsed _ _ _ _ _ _ _ (recorded_baseline_parses v Hr)).
  split.
  - intros [-> | ->]; [now rewrite Z.eqb_refl | now rewrite andb_false_r].
  - intros Hneq ->. apply Z.eqb_neq in Hneq. rewrite Hneq. cbn [negb andb].
    cbn [RequiresReplace PlanValue PlanDiagnostics].
    repeat apply conj; try reflexivity.
    apply diag_Contains_Append.
Qed.

(** X7: a baseline that holds the decimal text of a number outside
    [int64] is a parse failure, not a clamped value: the response holds
    the Error whose detail says [value out of range], and replacement flag
    and plan value are as before (the bound [ParseInt] returns is not
    used). *)
Theorem out_of_range_baseline_is_error
  (resp : Int64Response) (v stateSize : Z) (planOverwrite : bool) (kind : string) :
  v < - 2 ^ 63 \/ 2 ^ 63 <= v ->
  let text := strconv.FormatInt v in
  let resp' := reconcile resp (Some (list_byte_of_string text))
                 stateSize planOverwrite kind in
  let detail := parseErrorDetail Quote (strconv.rangeError "ParseInt" text) in
  diag.Contains (PlanDiagnostics resp')
    (diag.NewErrorDiagnostic (parseErrorSummary kind) detail) = true
  /\ strings.Contains detail "value out of range" = true
  /\ HasError (PlanDiagnostics resp') = true
  /\ RequiresReplace resp' = RequiresReplace resp
  /\ PlanValue resp' = PlanValue resp.
Proof.
  intros Hout text resp' detail.
  assert (Hparse : exists bound,
             strconv.ParseInt (string_of_list_byte (list_byte_of_string text))
             = (bound, Some (strconv.rangeError "ParseInt" text))).
  { rewrite string_of_list_byte_of_string. subst text.
    destruct (ParseInt_FormatInt_out_of_range v) as [Hhi Hlo].
    destruct Hout as [Hout|Hout]; eexists; [apply Hlo | apply Hhi]; exact Hout. }
  destruct Hparse as (bound & Hparse).
  subst resp'. rewrite (reconcile_parse_error _ _ _ _ _ _ _ _ Hparse).
  cbn [setPlanDiagnostics PlanDiagnostics RequiresReplace PlanValue].
  unfold diag.AddError.
  repeat apply conj; try reflexivity.
  - apply diag_Contains_Append.
  - subst detail. unfold parseErrorDetail, strconv.NumError_Error.
    do 10 apply Contains_app_r. reflexivity.
  - rewrite HasError_Append. apply orb_true_r.
Qed.

(** X8: a non-nil baseline that, after one optional sign, is empty or has
    a byte that is not a decimal digit (a space, a letter, a second sign,
    a decimal point) makes the plan fail: the response has an Error, and
    replacement flag and plan value are as before. *)
Theorem non_numeric_baseline_is_error
  (resp : Int64Response) (bytes : list byte) (stateSize : Z)
  (planOverwrite : bool) (kind : string) :
  let text := string_of_list_byte bytes in
  unsignedPart text = "" \/ allDigits (unsignedPart text) = false ->
  let resp' := reconcile resp (Some bytes) stateSize planOverwrite kind in
  HasError (PlanDiagnostics resp') = true
  /\ RequiresReplace resp' = RequiresReplace resp
  /\ PlanValue resp' = PlanValue resp.
Proof.
  intros text Hbad resp'.
  destruct (ParseInt_not_digits text Hbad) as (v & e & Hparse).
  subst resp'. rewrite (reconcile_parse_error _ _ _ _ _ _ _ _ Hparse).
  cbn [setPlanDiagnostics PlanDiagnostics RequiresReplace PlanValue].
  unfold diag.AddError. rewrite HasError_Append.
  repeat apply conj; try reflexivity. apply orb_true_r.
Qed.

(** X9: when the baseline does not parse, the Error the response holds
    quotes the baseline: its detail contains
    [strconv.ParseInt: parsing] followed by the quoted baseline text. *)
Theorem parse_error_quotes_baseline
  (resp : Int64Response) (bytes : list byte) (v : Z) (e : strconv.NumError)
  (stateSize : Z) (planOverwrite : bool) (kind : string) :
  strconv.ParseInt (string_of_list_byte bytes) = (v, Some e) ->
  let resp' := reconcile resp (Some bytes) stateSize planOverwrite kind in
  diag.Contains (PlanDiagnostics resp')
    (diag.NewErrorDiagnostic (parseErrorSummary kind) (parseErrorDetail Quote e)) = true
  /\ strings.Contains (parseErrorDetail Quote e)
       ("strconv.ParseInt: parsing " ++ Quote (string_of_list_byte bytes)) = true.
Proof.
  intros Hparse resp'.
  subst resp'. rewrite (reconcile_parse_error _ _ _ _ _ _ _ _ Hparse).
  cbn [setPlanDiagnostics PlanDiagnostics]. unfold diag.AddError.
  split; [apply diag_Contains_Append|].
  destruct (ParseInt_error_cites_input _ _ _ Hparse) as [Hf Hn].
  unfold parseErrorDetail, strconv.NumError_Error. rewrite Hf, Hn.
  do 5 apply Contains_app_r.
  apply Contains_spec.
  exists "", (": " ++ strconv.numErr_Error (strconv.Err e)).
  cbn [append].
  repeat (cbn [append]; f_equal).
Qed.

(** X10: sizes are compared as numbers, not as text: two baselines that
    parse to the same number (with or without a plus sign or leading
    zeros) give the same result. *)
Theorem baselines_compared_as_numbers
  (resp : Int64Response) (bytes1 bytes2 : list byte) (v stateSize : Z)
  (planOverwrite : bool) (kind : string) :
  strconv.ParseInt (string_of_list_byte bytes1) = (v, None) ->
  strconv.ParseInt (string_of_list_byte bytes2) = (v, None) ->
  reconcile resp (Some bytes1) stateSize planOverwrite kind
  = reconcile resp (Some bytes2) stateSize planOverwrite kind.
Proof.
  intros H1 H2.
  now rewrite (reconcile_parsed _ _ _ _ _ _ _ H1), (reconcile_parsed _ _ _ _ _ _ _ H2).
Qed.

End ReconcilerBehaviour.

(* ================================================================== *)
(** ** More on [handleReadResult] and [handleDatastoreDeleteError] *)

Section OutcomeBehaviour.

Variable Context : Type.
Variable RawValue : Type.
Variable ErrResourceDoesNotExist : errors.error.

Local Abbreviation classifyDelete :=
  (handleDatastoreDeleteError (RawValue := RawValue) ErrResourceDoesNotExist).

(** X11: what [handleReadResult] can do to a response, whatever the
    error: the diagnostics that were there stay, in order, and at most one
    is added; the state is left as it was or made null; and the flag
    returned is true exactly when there was an error. *)
Theorem read_result_frame
  (ctx : Context) (resp : ReadResponse RawValue) (err : option errors.error)
  (notExistMessage : string) :
  let r := handleReadResult ctx resp err notExistMessage in
  (exists tail,
      ReadDiagnostics (fst r) = (ReadDiagnostics resp ++ tail)%list
      /\ (List.length tail <= 1)%nat)
  /\ (ReadState (fst r) = ReadState resp \/ Raw (ReadState (fst r)) = None)
  /\ snd r = match err with Some _ => true | None => false end.
Proof.
  intros r; subst r. split; [apply read_append_only|].
  unfold handleReadResult. destruct err as [e|]; [|now split; [left|]].
  destruct (strings.Contains (errors.Error e) "failed to authenticate");
    cbn [fst snd ReadState]; (split; [|reflexivity]); [now left | now right].
Qed.

(** X12: a read response has an Error after the call exactly when it had
    one before or the error text contains [failed to authenticate]; every
    other read error only warns. *)
Theorem read_result_HasError
  (ctx : Context) (resp : ReadResponse RawValue) (err : option errors.error)
  (notExistMessage : string) :
  HasError (ReadDiagnostics (fst (handleReadResult ctx resp err notExistMessage)))
  = HasError (ReadDiagnostics resp)
    || match err with
       | Some e => strings.Contains (errors.Error e) "failed to authenticate"
       | None => false
       end.
Proof.
  unfold handleReadResult. destruct err as [e|]; [|now rewrite orb_false_r].
  destruct (strings.Contains (errors.Error e) "failed to authenticate");
    cbn [fst ReadDiagnostics]; unfold diag.AddError, diag.AddWarning;
    rewrite HasError_Append; cbn; [reflexivity | now rewrite orb_false_r].
Qed.

(** X13: handling the same read error a second time changes nothing more:
    no second diagnostic, the same state, the same flag. *)
Theorem read_result_idempotent
  (ctx : Context) (resp : ReadResponse RawValue) (err : option errors.error)
  (notExistMessage : string) :
  handleReadResult ctx (fst (handleReadResult ctx resp err notExistMessage))
    err notExistMessage
  = handleReadResult ctx resp err notExistMessage.
Proof.
  unfold handleReadResult. destruct err as [e|]; [|reflexivity].
  destruct (strings.Contains (errors.Error e) "failed to authenticate");
    cbn [fst ReadState ReadDiagnostics RemoveResource];
    unfold diag.AddError, diag.AddWarning;
    now rewrite diag_Append_idem.
Qed.

(** X14: the marker is looked for anywhere in the error text.  An error
    whose text is any prefix, then [failed to authenticate], then any
    suffix (so also an authentication failure wrapped in a message that
    says the object was not found) keeps the state and makes the response
    carry an Error. *)
Theorem auth_marker_anywhere
  (ctx : Context) (resp : ReadResponse RawValue) (e : errors.error)
  (pre post notExistMessage : string) :
  errors.Error e = pre ++ "failed to authenticate" ++ post ->
  let r := handleReadResult ctx resp (Some e) notExistMessage in
  ReadState (fst r) = ReadState resp
  /\ HasError (ReadDiagnostics (fst r)) = true
  /\ diag.Contains (ReadDiagnostics (fst r))
       (diag.NewErrorDiagnostic "Failed to authenticate" (errors.Error e)) = true.
Proof.
  intros Htext r; subst r.
  assert (Hc : strings.Contains (errors.Error e) "failed to authenticate" = true)
    by (apply Contains_spec; eauto).
  unfold handleReadResult. rewrite Hc. cbn [fst ReadState ReadDiagnostics].
  unfold diag.AddError. rewrite HasError_Append.
  repeat apply conj; [reflexivity | apply orb_true_r | apply diag_Contains_Append].
Qed.

(** X15: [handleDatastoreDeleteError] never touches the state; the
    diagnostics that were there stay, in order, and at most one is
    added. *)
Theorem delete_error_frame
  (resp : DeleteResponse RawValue) (err : option errors.error)
  (id itemKind : string) :
  DeleteState (classifyDelete resp err id itemKind) = DeleteState resp
  /\ exists tail,
       DeleteDiagnostics (classifyDelete resp err id itemKind)
       = (DeleteDiagnostics resp ++ tail)%list
       /\ (List.length tail <= 1)%nat.
Proof.
  split; [|apply delete_append_only].
  unfold handleDatastoreDeleteError. destruct err as [e|]; [|reflexivity].
  destruct (errors.Is e ErrResourceDoesNotExist); [reflexivity|].
  destruct (strings.Contains (errors.Error e) "unable to parse"); reflexivity.
Qed.

(** X16: a delete response has an Error after the call exactly when it
    had one before, or there is an error that neither is (or wraps) the
    does-not-exist sentinel nor has [unable to parse] in its text. *)
Theorem delete_error_HasError
  (resp : DeleteResponse RawValue) (err : option errors.error)
  (id itemKind : string) :
  HasError (DeleteDiagnostics (classifyDelete resp err id itemKind))
  = HasError (DeleteDiagnostics resp)
    || match err with
       | Some e =>
           negb (errors.Is e ErrResourceDoesNotExist)
           && negb (strings.Contains (errors.Error e) "unable to parse")
       | None => false
       end.
Proof.
  unfold handleDatastoreDeleteError. destruct err as [e|]; [|now rewrite orb_false_r].
  destruct (errors.Is e ErrResourceDoesNotExist); [now rewrite orb_false_r|].
  destruct (strings.Contains (errors.Error e) "unable to parse");
    cbn [DeleteDiagnostics negb andb]; unfold diag.AddError, diag.AddWarning;
    rewrite HasError_Append; cbn; [now rewrite orb_false_r | reflexivity].
Qed.

(** X17: handling the same delete error a second time changes nothing
    more. *)
Theorem delete_error_idempotent
  (resp : DeleteResponse RawValue) (err : option errors.error)
  (id itemKind : string) :
  classifyDelete (classifyDelete resp err id itemKind) err id itemKind
  = classifyDelete resp err id itemKind.
Proof.
  unfold handleDatastoreDeleteError. destruct err as [e|]; [|reflexivity].
  destruct (errors.Is e ErrResourceDoesNotExist); [reflexivity|].
  destruct (strings.Contains (errors.Error e) "unable to parse");
    cbn [DeleteState DeleteDiagnostics];
    unfold diag.AddError, diag.AddWarning;
    now rewrite diag_Append_idem.
Qed.

(** X18: the sentinel is found at any depth.  An error reached from
    [err] through any number of wrappers ([%w], also among several
    wrapped errors) that is the sentinel value makes the delete a silent
    success. *)
Theorem sentinel_found_at_any_depth
  (resp : DeleteResponse RawValue) (id itemKind : string)
  (ident : nat) (text : string) (err : errors.error) :
  ErrResourceDoesNotExist = errors.errorValue ident text ->
  inChain (errors.errorValue ident text) err ->
  classifyDelete resp (Some err) id itemKind = resp.
Proof.
  intros Hs Hin. unfold handleDatastoreDeleteError.
  now rewrite Hs, (errors_Is_inChain _ _ _ Hin).
Qed.

End OutcomeBehaviour.

(* ================================================================== *)
(** ** The further theorems at concrete inputs *)

Lemma reconcile_never_clears_replace_witness :
  RequiresReplace replacedPlan = true
  /\ RequiresReplace
       (applySizeRequiresReplace quotePlain replacedPlan
          (Some (list_byte_of_string "abc")) 150 true "file") = true
  /\ RequiresReplace
       (applySizeRequiresReplace quotePlain replacedPlan
          (Some (list_byte_of_string "150")) 150 false "file") = true.
Proof.
  split; [reflexivity|]. split.
  - exact (reconcile_never_clears_replace quotePlain replacedPlan
             (Some (list_byte_of_string "abc")) 150 true "file" eq_refl).
  - exact (reconcile_never_clears_replace quotePlain replacedPlan
             (Some (list_byte_of_string "150")) 150 false "file" eq_refl).
Defined.

Lemma plan_value_changes_only_to_baseline_witness :
  let resp' :=
    applySizeRequiresReplace quotePlain (freshPlan 150)
      (Some (list_byte_of_string "100")) 150 true "file" in
  PlanValue resp' <> PlanValue (freshPlan 150)
  /\ exists bytes v,
       Some (list_byte_of_string "100") = Some bytes
       /\ strconv.ParseInt (string_of_list_byte bytes) = (v, None)
       /\ - 2 ^ 63 <= v < 2 ^ 63
       /\ v <> 150
       /\ true = true
       /\ PlanValue resp' = Int64Value v
       /\ RequiresReplace resp' = true.
Proof.
  assert (Hchg : PlanValue
                   (applySizeRequiresReplace quotePlain (freshPlan 150)
                      (Some (list_byte_of_string "100")) 150 true "file")
                 <> PlanValue (freshPlan 150))
    by (vm_compute; discriminate).
  split; [exact Hchg|].
  exact (plan_value_changes_only_to_baseline quotePlain (freshPlan 150)
           (Some (list_byte_of_string "100")) 150 true "file" Hchg).
Defined.

Lemma recorded_baseline_reconciled_witness :
  let baseline := Some (list_byte_of_string (strconv.FormatInt 100)) in
  - 2 ^ 63 <= 100 < 2 ^ 63
  /\ applySizeRequiresReplace quotePlain (freshPlan 100) baseline 100 true "file"
     = freshPlan 100
  /\ (let resp' :=
        applySizeRequiresReplace quotePlain (freshPlan 150) baseline 150 true "file" in
      RequiresReplace resp' = true
      /\ PlanValue resp' = Int64Value 100
      /\ diag.Contains (PlanDiagnostics resp')
           (diag.NewWarningDiagnostic (sizeChangedSummary "file")
              (sizeChangedDetail 100 150)) = true).
Proof.
  assert (Hr : - 2 ^ 63 <= 100 < 2 ^ 63) by (split; [discriminate | reflexivity]).
  split; [exact Hr|]. split.
  - exact (proj1 (recorded_baseline_reconciled quotePlain (freshPlan 100)
                    100 100 true "file" Hr) (or_introl eq_refl)).
  - exact (proj2 (recorded_baseline_reconciled quotePlain (freshPlan 150)
                    100 150 true "file" Hr)
             (proj1 (Z.eqb_neq 150 100) eq_refl) eq_refl).
Defined.

Lemma out_of_range_baseline_is_error_witness :
  let text := "9223372036854775808" in
  let resp' :=
    applySizeRequiresReplace quotePlain (freshPlan 150)
      (Some (list_byte_of_string text)) 150 true "file" in
  let detail := parseErrorDetail quotePlain (strconv.rangeError "ParseInt" text) in
  2 ^ 63 <= 9223372036854775808
  /\ diag.Contains (PlanDiagnostics resp')
       (diag.NewErrorDiagnostic (parseErrorSummary "file") detail) = true
  /\ strings.Contains detail "value out of range" = true
  /\ HasError (PlanDiagnostics resp') = true
  /\ RequiresReplace resp' = false
  /\ PlanValue resp' = Int64Value 150.
Proof.
  assert (Hout : 2 ^ 63 <= 9223372036854775808) by discriminate.
  split; [exact Hout|].
  exact (out_of_range_baseline_is_error quotePlain (freshPlan 150)
           9223372036854775808 150 true "file" (or_intror Hout)).
Defined.

Lemma non_numeric_baseline_is_error_witness :
  let resp' :=
    applySizeRequiresReplace quotePlain (freshPlan 150)
      (Some (list_byte_of_string "-1e3")) 150 true "file" in
  unsignedPart "-1e3" = "1e3"
  /\ allDigits "1e3" = false
  /\ HasError (PlanDiagnostics resp') = true
  /\ RequiresReplace resp' = false
  /\ PlanValue resp' = Int64Value 150.
Proof.
  split; [reflexivity|]. split; [reflexivity|].
  exact (non_numeric_baseline_is_error quotePlain (freshPlan 150)
           (list_byte_of_string "-1e3") 150 true "file" (or_intror eq_refl)).
Defined.

Lemma parse_error_quotes_baseline_witness :
  let e := strconv.syntaxError "ParseInt" "12a" in
  let resp' :=
    applySizeRequiresReplace quotePlain (freshPlan 150)
      (Some (list_byte_of_string "12a")) 150 true "file" in
  strconv.ParseInt (string_of_list_byte (list_byte_of_string "12a")) = (0, Some e)
  /\ diag.Contains (PlanDiagnostics resp')
       (diag.NewErrorDiagnostic (parseErrorSummary "file")
          (parseErrorDetail quotePlain e)) = true
  /\ strings.Contains (parseErrorDetail quotePlain e)
       ("strconv.ParseInt: parsing " ++ dquote ++ "12a" ++ dquote) = true.
Proof.
  split; [reflexivity|].
  exact (parse_error_quotes_baseline quotePlain (freshPlan 150)
           (list_byte_of_string "12a") 0 (strconv.syntaxError "ParseInt" "12a")
           150 true "file" eq_refl).
Defined.

Lemma baselines_compared_as_numbers_witness :
  strconv.ParseInt (string_of_list_byte (list_byte_of_string "+100")) = (100, None)
  /\ strconv.ParseInt (string_of_list_byte (list_byte_of_string "0100")) = (100, None)
  /\ applySizeRequiresReplace quotePlain (freshPlan 150)
       (Some (list_byte_of_string "+100")) 150 true "file"
     = applySizeRequiresReplace quotePlain (freshPlan 150)
         (Some (list_byte_of_string "0100")) 150 true "file".
Proof.
  split; [reflexivity|]. split; [reflexivity|].
  exact (baselines_compared_as_numbers quotePlain (freshPlan 150)
           (list_byte_of_string "+100") (list_byte_of_string "0100")
           100 150 true "file" eq_refl eq_refl).
Defined.

Lemma auth_marker_anywhere_witness :
  let r := handleReadResult tt freshRead (Some wrappedAuthFailure) "msg" in
  errors.Error wrappedAuthFailure
  = "volume not found: " ++ "failed to authenticate" ++ ": ticket expired"
  /\ ReadState (fst r) = ReadState freshRead
  /\ HasError (ReadDiagnostics (fst r)) = true
  /\ diag.Contains (ReadDiagnostics (fst r))
       (diag.NewErrorDiagnostic "Failed to authenticate"
          (errors.Error wrappedAuthFailure)) = true.
Proof.
  split; [reflexivity|].
  exact (auth_marker_anywhere unit nat tt freshRead wrappedAuthFailure
           "volume not found: " ": ticket expired" "msg" eq_refl).
Defined.

Lemma sentinel_found_at_any_depth_witness :
  inChain sampleSentinel nestedSentinel
  /\ handleDatastoreDeleteError sampleSentinel freshDelete
       (Some nestedSentinel) "x" "disk" = freshDelete.
Proof.
  assert (Hin : inChain sampleSentinel nestedSentinel).
  { apply chain_wrap.
    apply chain_wraps with (e := errors.wrapError "lookup" sampleSentinel).
    - right; left; reflexivity.
    - apply chain_wrap, chain_here. }
  split; [exact Hin|].
  exact (sentinel_found_at_any_depth nat sampleSentinel freshDelete "x" "disk"
           1%nat "the requested resource does not exist" nestedSentinel eq_refl Hin).
Defined.
